(** * RideShareFrontend: SearchForm and TripCard

    A shallow embedding of the two components of
    [src/frontend/src/components/trips/SearchForm.tsx]: the search form
    (validation, submit, change handling, debounced live search) and the
    trip card (role derivation, phone formatting, join action), followed
    by the properties the specification states about them.

    Conventions of the embedding:
    - a JavaScript string is a [string]: a sequence of code units, here
      the code units 0..255 (ASCII and Latin-1); text with other code
      units is outside the embedding;
    - a JavaScript number that the code uses as an integer (prices,
      passenger counts, ids, milliseconds) is a [Z]; [NaN] is [None];
    - an object used as a map (the [errors] state) is a [gmap] keyed by
      the field name;
    - component state is passed explicitly through a small state and
      exception monad; callbacks and API calls are recorded in the state
      as a log of effects. *)

From Stdlib Require Import ZArith String Ascii List Lia Bool.
From stdpp Require Import base option gmap strings list fin_maps.

Local Open Scope string_scope.
Local Open Scope list_scope.
Local Open Scope Z_scope.

(** ** JavaScript primitives used by the components *)

Module JS.

Definition code (c : ascii) : Z := Z.of_N (N_of_ascii c).

(** WhiteSpace and LineTerminator code units below 256, the set that
    [String.prototype.trim] and [parseInt] strip: TAB, LF, VT, FF, CR,
    SPACE and NBSP. *)
Definition isWhiteSpace (c : ascii) : bool :=
  let n := code c in
  ((9 <=? n) && (n <=? 13)) || (n =? 32) || (n =? 160).

(** [\d] of a regular expression: the ten ASCII digits. *)
Definition isDigit (c : ascii) : bool :=
  let n := code c in (48 <=? n) && (n <=? 57).

(** The class [[,\.]]. *)
Definition isCommaOrPeriod (c : ascii) : bool :=
  let n := code c in (n =? 44) || (n =? 46).

(** Lower-case mapping of one code unit: A-Z, and the Latin-1 capitals
    U+00C0..U+00DE without the multiplication sign U+00D7. *)
Definition lowerChar (c : ascii) : ascii :=
  let n := code c in
  if ((65 <=? n) && (n <=? 90))
     || ((192 <=? n) && (n <=? 222) && negb (n =? 215))
  then ascii_of_N (Z.to_N (n + 32))
  else c.

Fixpoint mapChars (f : ascii -> ascii) (s : string) : string :=
  match s with
  | EmptyString => EmptyString
  | String c r => String (f c) (mapChars f r)
  end.

(** [s.replace(/[class]/g, '')]: every code unit of the class removed. *)
Fixpoint removeAll (p : ascii -> bool) (s : string) : string :=
  match s with
  | EmptyString => EmptyString
  | String c r => if p c then removeAll p r else String c (removeAll p r)
  end.

Fixpoint revOnto (s acc : string) : string :=
  match s with
  | EmptyString => acc
  | String c r => revOnto r (String c acc)
  end.

Definition reverse (s : string) : string := revOnto s EmptyString.

Fixpoint trimStart (s : string) : string :=
  match s with
  | EmptyString => EmptyString
  | String c r => if isWhiteSpace c then trimStart r else s
  end.

Definition trimEnd (s : string) : string := reverse (trimStart (reverse s)).

Definition trim (s : string) : string := trimEnd (trimStart s).

(** [String.prototype.toLowerCase] on text of code units below 256.
    There the mapping of the language acts on each code unit by itself.
    On other text it does not: a capital sigma, for one, is lowered
    according to the letters around it. Such text is not modelled. *)
Definition toLowerCase (s : string) : string := mapChars lowerChar s.

Definition len (s : string) : Z := Z.of_nat (String.length s).

(** Truthiness of a string: every string but the empty one. *)
Definition truthy (s : string) : bool :=
  match s with EmptyString => false | String _ _ => true end.

(** [s.slice(start, end)]; [end] omitted is [None]. A negative index
    counts from the end, and both indices are clamped to [0, len]. *)
Definition clampIndex (n i : Z) : Z :=
  if i <? 0 then Z.max (n + i) 0 else Z.min i n.

Definition slice (s : string) (start : Z) (stop : option Z) : string :=
  let n := len s in
  let lo := clampIndex n start in
  let hi := match stop with None => n | Some e => clampIndex n e end in
  String.substring (Z.to_nat lo) (Z.to_nat (Z.max (hi - lo) 0)) s.

(** Value of a digit in a radix up to 16. *)
Definition digitValue (c : ascii) : option Z :=
  let n := code c in
  if (48 <=? n) && (n <=? 57) then Some (n - 48)
  else if (97 <=? n) && (n <=? 102) then Some (n - 87)
  else if (65 <=? n) && (n <=? 70) then Some (n - 55)
  else None.

(** The longest prefix of radix-[r] digits, read left to right;
    [None] when that prefix is empty. *)
Fixpoint digitsFrom (r : Z) (s : string) (acc : option Z) : option Z :=
  match s with
  | EmptyString => acc
  | String c rest =>
      match digitValue c with
      | Some d =>
          if d <? r
          then digitsFrom r rest (Some (r * default 0 acc + d))
          else acc
      | None => acc
      end
  end.

(** [parseInt(s)] with no radix argument: leading white space skipped,
    an optional sign, an optional [0x]/[0X] prefix selecting radix 16,
    then the longest run of digits. [None] stands for [NaN]. *)
Definition parseInt (s : string) : option Z :=
  let s1 := trimStart s in
  let '(sign, s2) :=
    match s1 with
    | String "-" r => (-1, r)
    | String "+" r => (1, r)
    | _ => (1, s1)
    end in
  let '(radix, s3) :=
    match s2 with
    | String "0" (String "x" r) => (16, r)
    | String "0" (String "X" r) => (16, r)
    | _ => (10, s2)
    end in
  match digitsFrom radix s3 None with
  | Some v => Some (sign * v)
  | None => None
  end.

(** [x || 0] on a number: [NaN] and zero are falsy. *)
Definition orZero (x : option Z) : Z := default 0 x.

Definition msPerDay : Z := 86400000.

(** Day number (days since 1970-01-01) of a proleptic Gregorian date,
    the [MakeDay] of the language specification. *)
Definition daysFromCivil (y m d : Z) : Z :=
  let y' := if m <=? 2 then y - 1 else y in
  let era := y' / 400 in
  let yoe := y' - era * 400 in
  let mp := if m >? 2 then m - 3 else m + 9 in
  let doy := (153 * mp + 2) / 5 + d - 1 in
  let doe := yoe * 365 + yoe / 4 - yoe / 100 + doy in
  era * 146097 + doe - 719468.

Definition isLeapYear (y : Z) : bool :=
  ((y mod 4 =? 0) && negb (y mod 100 =? 0)) || (y mod 400 =? 0).

Definition daysInMonth (y m : Z) : Z :=
  if m =? 2 then (if isLeapYear y then 29 else 28)
  else if (m =? 4) || (m =? 6) || (m =? 9) || (m =? 11) then 30
  else 31.

Fixpoint allDigits (s : string) : bool :=
  match s with
  | EmptyString => true
  | String c r => isDigit c && allDigits r
  end.

Definition decimal (s : string) : option Z :=
  if allDigits s then digitsFrom 10 s None else None.

(** The date-only form [YYYY-MM-DD], which is what an input of type
    [date] holds when it is not empty: year, month and day of a valid
    calendar date. *)
Definition parseIsoDate (s : string) : option (Z * Z * Z) :=
  if (String.length s =? 10)%nat
     && String.eqb (String.substring 4 1 s) "-"
     && String.eqb (String.substring 7 1 s) "-"
  then
    match decimal (String.substring 0 4 s),
          decimal (String.substring 5 2 s),
          decimal (String.substring 8 2 s) with
    | Some y, Some m, Some d =>
        if (1 <=? m) && (m <=? 12) && (1 <=? d) && (d <=? daysInMonth y m)
        then Some (y, m, d) else None
    | _, _, _ => None
    end
  else None.

(** [new Date(s).getTime()] for a date-only string: midnight UTC of
    that day, in milliseconds since the epoch; [None] is an invalid
    date, which compares false with everything. *)
Definition dateOfString (s : string) : option Z :=
  match parseIsoDate s with
  | Some (y, m, d) => Some (daysFromCivil y m d * msPerDay)
  | None => None
  end.

(** [d.setHours(0, 0, 0, 0)] on the instant [now] in a zone that is
    [tzOffset] milliseconds ahead of UTC: midnight, local time, of the
    current local calendar day. *)
Definition localDay (now tzOffset : Z) : Z := (now + tzOffset) / msPerDay.

Definition startOfLocalDay (now tzOffset : Z) : Z :=
  localDay now tzOffset * msPerDay - tzOffset.

(** [a < b] on two dates, false when [a] is invalid. *)
Definition dateLt (a : option Z) (b : Z) : bool :=
  match a with Some t => t <? b | None => false end.

End JS.

(** ** State and exceptions

    An event handler is a computation over the component state that ends
    normally or by a thrown error; of a thrown error only its [message]
    is ever read by the code. *)

Module Eff.

Inductive Res (A : Type) : Type :=
| Normal (a : A)
| Thrown (message : string).
Arguments Normal {A} a.
Arguments Thrown {A} message.

Definition M (St A : Type) : Type := St -> Res A * St.

Definition ret {St A} (a : A) : M St A := fun st => (Normal a, st).

Definition bind {St A B} (m : M St A) (k : A -> M St B) : M St B :=
  fun st =>
    match m st with
    | (Normal a, st') => k a st'
    | (Thrown e, st') => (Thrown e, st')
    end.

Definition throw {St A} (message : string) : M St A :=
  fun st => (Thrown message, st).

Definition gets {St A} (f : St -> A) : M St A := fun st => (Normal (f st), st).

Definition modify {St} (f : St -> St) : M St unit :=
  fun st => (Normal tt, f st).

(** [try { body } catch (error) { handler(error.message) }] *)
Definition tryCatch {St A} (body : M St A) (handler : string -> M St A)
  : M St A :=
  fun st =>
    match body st with
    | (Normal a, st') => (Normal a, st')
    | (Thrown e, st') => handler e st'
    end.

(** [try { body } finally { cleanup }]: the cleanup runs on both exits
    and the outcome of the body is kept, unless the cleanup throws. *)
Definition tryFinally {St A} (body : M St A) (cleanup : M St unit)
  : M St A :=
  fun st =>
    match body st with
    | (r, st') =>
        match cleanup st' with
        | (Normal _, st'') => (r, st'')
        | (Thrown e, st'') => (Thrown e, st'')
        end
    end.

(** A handler run from the event loop: an error that nothing caught is
    reported by the host and the state reached is kept. *)
Definition exec {St A} (m : M St A) (st : St) : St := snd (m st).

End Eff.

Notation "x <- c1 ;; c2" := (Eff.bind c1 (fun x => c2))
  (at level 100, c1 at next level, right associativity, only parsing).
Notation "c1 ;;; c2" := (Eff.bind c1 (fun _ => c2))
  (at level 100, right associativity, only parsing).

(** The settled result of an awaited promise, or of a callback. *)
Inductive Outcome : Type :=
| Resolved
| Rejected (message : string).

Definition await {St} (o : Outcome) : Eff.M St unit :=
  match o with
  | Resolved => Eff.ret tt
  | Rejected e => Eff.throw e
  end.

(** ** The search form *)

Module SearchForm.

Record SearchFormData : Type := {
  from : string;
  to : string;
  departureDate : string;
  maxPrice : Z
}.

(** The [name] attribute of the four inputs the form renders. *)
Inductive InputName : Type :=
| name_from
| name_to
| name_departureDate
| name_maxPrice.

Definition key (n : InputName) : string :=
  match n with
  | name_from => "from"
  | name_to => "to"
  | name_departureDate => "departureDate"
  | name_maxPrice => "maxPrice"
  end.

(** The [type] attribute each of them is rendered with. *)
Inductive InputType : Type := text | date | number.

Definition inputType (n : InputName) : InputType :=
  match n with
  | name_from | name_to => text
  | name_departureDate => date
  | name_maxPrice => number
  end.

(** [Partial<SearchFormData>] used as a map from field name to message;
    a key can be present with the value [undefined] ([None]). *)
Abbreviation Errors := (gmap string (option string)).

Record Props : Type := {
  (** The parent's [onSearch]: [Rejected m] when the callback throws. *)
  onSearch : SearchFormData -> Outcome;
  isLoading : bool
}.

(** What a handler can observe of the host: the current instant in
    milliseconds since the epoch, and how far local time is ahead of
    UTC. *)
Record Clock : Type := {
  now : Z;
  tzOffset : Z
}.

Record State : Type := {
  formData : SearchFormData;
  errors : Errors;
  (** The debounced function that [useCallback] returns in this
      render: time of its last call and the arguments of that call,
      while an invocation is pending. [useCallback] returns the same
      one only as long as the [onSearch] prop is the same function;
      what a change of that prop does is in [Mounted] below. *)
  pending : option (Z * SearchFormData);
  (** Every invocation of [onSearch], oldest first. *)
  searches : list SearchFormData
}.

Definition emptyForm : SearchFormData :=
  {| from := ""; to := ""; departureDate := ""; maxPrice := 0 |}.

Definition initial : State :=
  {| formData := emptyForm; errors := ∅; pending := None; searches := [] |}.

Definition setFormData (d : SearchFormData) : Eff.M State unit :=
  Eff.modify (fun st =>
    {| formData := d; errors := errors st; pending := pending st;
       searches := searches st |}).

Definition setErrors (e : Errors) : Eff.M State unit :=
  Eff.modify (fun st =>
    {| formData := formData st; errors := e; pending := pending st;
       searches := searches st |}).

Definition setPending (t : option (Z * SearchFormData)) : Eff.M State unit :=
  Eff.modify (fun st =>
    {| formData := formData st; errors := errors st; pending := t;
       searches := searches st |}).

Definition callOnSearch (p : Props) (d : SearchFormData) : Eff.M State unit :=
  Eff.modify (fun st =>
    {| formData := formData st; errors := errors st; pending := pending st;
       searches := searches st ++ [d] |}) ;;;
  await (onSearch p d).

Definition wait : Z := 500.

(** A call of the debounced function of this render, which is
    [debounce(f, 500)] of lodash with its default options (trailing
    edge only): the call records its time and arguments and invokes
    nothing. *)
Definition debouncedSearch (c : Clock) (searchData : SearchFormData)
  : Eff.M State unit :=
  setPending (Some (now c, searchData)).

(** The timer of the debounced function: once [wait] milliseconds have
    passed since the last call, [onSearch] is invoked with the arguments
    of that call. *)
Definition timerDue (c : Clock) (st : State) : bool :=
  match pending st with
  | Some (lastCall, _) => lastCall + wait <=? now c
  | None => false
  end.

Definition fireTimer (p : Props) : Eff.M State unit :=
  t <- Eff.gets pending ;;
  match t with
  | Some (_, lastArgs) => setPending None ;;; callOnSearch p lastArgs
  | None => Eff.ret tt
  end.

Definition normalizeLocation (location : string) : string :=
  JS.trim (JS.removeAll JS.isCommaOrPeriod (JS.toLowerCase location)).

Definition msg_from_required : string := "Departure location is required".
Definition msg_to_required : string := "Destination is required".
Definition msg_same_location : string :=
  "Destination must be different from departure location".
Definition msg_past_date : string := "Departure date cannot be in the past".
Definition msg_search_failed : string := "Search failed. Please try again.".

(** The object [newErrors] that [validateForm] builds. *)
Definition newErrors (c : Clock) (fd : SearchFormData) : Errors :=
  let e0 : Errors := ∅ in
  let e1 :=
    if negb (JS.truthy (JS.trim (from fd)))
    then <[ "from" := Some msg_from_required ]> e0 else e0 in
  let e2 :=
    if negb (JS.truthy (JS.trim (to fd)))
    then <[ "to" := Some msg_to_required ]> e1 else e1 in
  let e3 :=
    if String.eqb (normalizeLocation (from fd)) (normalizeLocation (to fd))
    then <[ "to" := Some msg_same_location ]> e2 else e2 in
  if JS.truthy (departureDate fd)
  then
    let selectedDate := JS.dateOfString (departureDate fd) in
    let today := JS.startOfLocalDay (now c) (tzOffset c) in
    if JS.dateLt selectedDate today
    then <[ "departureDate" := Some msg_past_date ]> e3 else e3
  else e3.

Definition validateForm (c : Clock) : Eff.M State bool :=
  fd <- Eff.gets formData ;;
  let e := newErrors c fd in
  setErrors e ;;;
  Eff.ret (bool_decide (size e = 0%nat)).

(** The value [validateForm] returns on the form data [fd]. *)
Definition accepted (c : Clock) (fd : SearchFormData) : bool :=
  bool_decide (size (newErrors c fd) = 0%nat).

(** The object [searchData] that [handleSubmit] passes to [onSearch];
    [maxPrice || 10000] replaces a zero. *)
Definition searchData (fd : SearchFormData) : SearchFormData :=
  {| from := JS.trim (from fd);
     to := JS.trim (to fd);
     departureDate := departureDate fd;
     maxPrice := if maxPrice fd =? 0 then 10000 else maxPrice fd |}.

Definition handleSubmit (p : Props) (c : Clock) : Eff.M State unit :=
  fd <- Eff.gets formData ;;
  setErrors ∅ ;;;
  ok <- validateForm c ;;
  if negb ok then Eff.ret tt
  else
    Eff.tryCatch
      (callOnSearch p (searchData fd))
      (fun _ => setErrors {[ "from" := Some msg_search_failed ]}).

(** The value stored for an input of type [number]. *)
Definition numberValue (value : string) : Z :=
  if String.eqb value "" then 0
  else Z.max 0 (JS.orZero (JS.parseInt value)).

(** [{...formData, [name]: type === 'number' ? numberValue : value}];
    the only input of type [number] is [maxPrice]. *)
Definition updated (fd : SearchFormData) (name : InputName) (value : string)
  : SearchFormData :=
  match name with
  | name_from =>
      {| from := value; to := to fd; departureDate := departureDate fd;
         maxPrice := maxPrice fd |}
  | name_to =>
      {| from := from fd; to := value; departureDate := departureDate fd;
         maxPrice := maxPrice fd |}
  | name_departureDate =>
      {| from := from fd; to := to fd; departureDate := value;
         maxPrice := maxPrice fd |}
  | name_maxPrice =>
      {| from := from fd; to := to fd; departureDate := departureDate fd;
         maxPrice := numberValue value |}
  end.

Definition isLocation (name : InputName) : bool :=
  match name with
  | name_from | name_to => true
  | _ => false
  end.

(** [errors[name]] as a condition. *)
Definition hasError (e : Errors) (name : InputName) : bool :=
  match e !! key name with
  | Some (Some m) => JS.truthy m
  | _ => false
  end.

Definition handleChange (c : Clock) (name : InputName) (value : string)
  : Eff.M State unit :=
  fd <- Eff.gets formData ;;
  errs <- Eff.gets errors ;;
  (if hasError errs name
   then setErrors (<[ key name := None ]> errs)
   else Eff.ret tt) ;;;
  let newFormData := updated fd name value in
  setFormData newFormData ;;;
  if isLocation name && (2 <=? JS.len value)
  then debouncedSearch c newFormData
  else Eff.ret tt.

Definition handleReset : Eff.M State unit :=
  setFormData emptyForm ;;;
  setErrors ∅.

(** The events of the form, and a run of the component over a list of
    events, each at its instant, under one and the same [onSearch]
    function. A timer that is due runs before the event that comes at
    or after its deadline. *)
Inductive Event : Type :=
| Change (name : InputName) (value : string)
| Submit
| Reset.

Definition handle (p : Props) (c : Clock) (ev : Event) : Eff.M State unit :=
  match ev with
  | Change name value => handleChange c name value
  | Submit => handleSubmit p c
  | Reset => handleReset
  end.

Definition step (p : Props) (tz : Z) (st : State) (te : Z * Event) : State :=
  let c := {| now := fst te; tzOffset := tz |} in
  let st1 := if timerDue c st then Eff.exec (fireTimer p) st else st in
  Eff.exec (handle p c (snd te)) st1.

Definition run (p : Props) (tz : Z) (evs : list (Z * Event)) (st : State)
  : State :=
  fold_left (step p tz) evs st.

(** No further event: the pending timer of the debounced function of
    this render, if any, expires. *)
Definition settle (p : Props) (st : State) : State :=
  Eff.exec (fireTimer p) st.

End SearchForm.

(** ** The search form across renders

    [SearchForm] is the component under one [onSearch] function. The
    debounced function comes from
    [useCallback(debounce(...), [onSearch])]: a render that brings
    another [onSearch] function builds a new debounced function, and
    the old one is let go of. Nothing cancels the timer of the old one,
    which still calls the [onSearch] it was built with. *)

Module Mounted.

(** A debounced function that [useCallback] has let go of while a call
    of it was pending. *)
Record Orphan : Type := {
  lastCall : Z;
  lastArgs : SearchForm.SearchFormData;
  target : SearchForm.Props
}.

Record State : Type := {
  form : SearchForm.State;
  (** The props of the last render. *)
  props : SearchForm.Props;
  (** Oldest first. *)
  orphans : list Orphan
}.

(** An event of the form, or a render by the parent: with the same
    [onSearch] function ([None]) or with another function object
    ([Some f]), be it one that does the same. *)
Inductive Event : Type :=
| Form (ev : SearchForm.Event)
| Render (newOnSearch : option (SearchForm.SearchFormData -> Outcome))
    (isLoading : bool).

Definition mount (p : SearchForm.Props) : State :=
  {| form := SearchForm.initial; props := p; orphans := [] |}.

(** The timers of the orphans that are due at the instant [t] expire,
    each calling its own [onSearch]. *)
Fixpoint fireOrphans (t : Z) (os : list Orphan) (f : SearchForm.State)
  : list Orphan * SearchForm.State :=
  match os with
  | [] => ([], f)
  | o :: rest =>
      if lastCall o + SearchForm.wait <=? t
      then fireOrphans t rest
             (Eff.exec (SearchForm.callOnSearch (target o) (lastArgs o)) f)
      else let '(rest', f') := fireOrphans t rest f in (o :: rest', f')
  end.

(** Time passes up to the instant [t]: every timer due by then
    expires, those of the orphans before the one of the debounced
    function of the last render, which was called after them. *)
Definition advance (tz t : Z) (st : State) : State :=
  let '(os, f1) := fireOrphans t (orphans st) (form st) in
  let c := {| SearchForm.now := t; SearchForm.tzOffset := tz |} in
  let f2 := if SearchForm.timerDue c f1
            then Eff.exec (SearchForm.fireTimer (props st)) f1
            else f1 in
  {| form := f2; props := props st; orphans := os |}.

Definition render
    (newOnSearch : option (SearchForm.SearchFormData -> Outcome))
    (loading : bool) (st : State) : State :=
  match newOnSearch with
  | None =>
      {| form := form st;
         props := {| SearchForm.onSearch := SearchForm.onSearch (props st);
                     SearchForm.isLoading := loading |};
         orphans := orphans st |}
  | Some f =>
      {| form := Eff.exec (SearchForm.setPending None) (form st);
         props := {| SearchForm.onSearch := f;
                     SearchForm.isLoading := loading |};
         orphans :=
           orphans st
           ++ match SearchForm.pending (form st) with
              | Some (t0, d) =>
                  [ {| lastCall := t0; lastArgs := d; target := props st |} ]
              | None => []
              end |}
  end.

Definition step (tz : Z) (st : State) (te : Z * Event) : State :=
  let st1 := advance tz (fst te) st in
  match snd te with
  | Form ev =>
      {| form :=
           Eff.exec
             (SearchForm.handle (props st1)
                {| SearchForm.now := fst te; SearchForm.tzOffset := tz |} ev)
             (form st1);
         props := props st1; orphans := orphans st1 |}
  | Render newOnSearch loading => render newOnSearch loading st1
  end.

Definition run (tz : Z) (evs : list (Z * Event)) (st : State) : State :=
  fold_left (step tz) evs st.

End Mounted.

(** ** The trip card *)

Module TripCard.

(** The values ['driver'] and ['passenger'] of [userRole]. *)
Inductive UserRole : Type := role_driver | role_passenger.

Record Driver : Type := {
  driver_name : string;
  driver_phone : string
}.

Record Passenger : Type := {
  passenger_id : Z;
  passenger_name : string;
  passenger_phone : option string;
  passenger_email : option string;
  createdAt : string
}.

(** Modelled from the spec: the type [Trip] of [@/types/trip], which
    the component imports; the fields are those of the data model, with
    the types the component uses them at. *)
Record Trip : Type := {
  id : Z;
  from : string;
  to : string;
  departureTime : string;
  maxPassengers : Z;
  currentPassengers : Z;
  pricePerPerson : Z;
  description : string;
  driverId : Z;
  driver : option Driver;
  userRole : option UserRole;
  passengers : list Passenger
}.

(** Modelled from the spec: the user of [useAuth], of which the card
    reads [id], [name] and [phone]. *)
Record User : Type := {
  user_id : Z;
  user_name : string;
  user_phone : string
}.

Record Props : Type := {
  onUpdate : option (Trip -> Outcome);
  onDelete : option (Z -> Outcome);
  showActions : bool;
  onJoin : option (Z -> Outcome)
}.

(** The API client: how the promise of [joinTrip(id)] settles. *)
Record Api : Type := {
  joinTrip : Z -> Outcome
}.

(** What the card does to the outside, in order. *)
Inductive Effect : Type :=
| CallJoinTrip (tripId : Z)
| CallOnJoin (tripId : Z)
| Settled (o : Outcome)
| SetLocalTrip (t : Trip)
| CallOnUpdate (t : Trip)
| Alert (message : string)
| SetTimeout (delay : Z).

Record State : Type := {
  localTrip : Trip;
  isLoading : bool;
  isAnimating : bool;
  trace : list Effect
}.

Definition mount (t : Trip) : State :=
  {| localTrip := t; isLoading := false; isAnimating := false; trace := [] |}.

Definition log (e : Effect) : Eff.M State unit :=
  Eff.modify (fun st =>
    {| localTrip := localTrip st; isLoading := isLoading st;
       isAnimating := isAnimating st; trace := trace st ++ [e] |}).

Definition setIsLoading (b : bool) : Eff.M State unit :=
  Eff.modify (fun st =>
    {| localTrip := localTrip st; isLoading := b;
       isAnimating := isAnimating st; trace := trace st |}).

Definition setIsAnimating (b : bool) : Eff.M State unit :=
  Eff.modify (fun st =>
    {| localTrip := localTrip st; isLoading := isLoading st;
       isAnimating := b; trace := trace st |}).

Definition setLocalTrip (t : Trip) : Eff.M State unit :=
  Eff.modify (fun st =>
    {| localTrip := t; isLoading := isLoading st;
       isAnimating := isAnimating st; trace := trace st |}) ;;;
  log (SetLocalTrip t).

Definition alert (message : string) : Eff.M State unit := log (Alert message).

(** [setTimeout(() => setIsAnimating(false), delay)] *)
Definition setTimeout (delay : Z) : Eff.M State unit := log (SetTimeout delay).

(** An awaited call: the call, then the point where its promise has
    settled; a rejection is thrown at the [await]. *)
Definition awaitCall (call : Effect) (o : Outcome) : Eff.M State unit :=
  log call ;;;
  log (Settled o) ;;;
  await o.

(** [onUpdate?.(t)] *)
Definition callOnUpdate (p : Props) (t : Trip) : Eff.M State unit :=
  match onUpdate p with
  | Some f => log (CallOnUpdate t) ;;; await (f t)
  | None => Eff.ret tt
  end.

(** *** Role derivation *)

Definition isOwner (user : option User) (t : Trip) : bool :=
  match user with
  | Some u => user_id u =? driverId t
  | None => false
  end
  || match userRole t with Some role_driver => true | _ => false end.

Definition isPassenger (t : Trip) : bool :=
  match userRole t with Some role_passenger => true | _ => false end.

Definition canJoin (user : option User) (t : Trip) : bool :=
  negb (isOwner user t) && negb (isPassenger t)
  && (currentPassengers t <? maxPassengers t).

Definition isFull (t : Trip) : bool :=
  maxPassengers t <=? currentPassengers t.

(** *** The action buttons the card renders *)

Inductive Control : Type :=
| JoinButton (disabled : bool) (label : string)
| Badge (label : string).

Definition when (b : bool) (c : Control) : list Control :=
  if b then [c] else [].

Definition actionButtons (p : Props) (user : option User) (st : State)
  : list Control :=
  let t := localTrip st in
  when (canJoin user t && showActions p)
    (JoinButton (isLoading st)
       (if isLoading st then "Joining..." else "Join Trip"))
  ++ when (isFull t && negb (isOwner user t) && negb (isPassenger t))
       (Badge "Trip Full")
  ++ when (isPassenger t) (Badge "You're Joining")
  ++ when (isOwner user t) (Badge "Your Trip").

Definition isEnabledJoin (c : Control) : bool :=
  match c with
  | JoinButton disabled _ => negb disabled
  | Badge _ => false
  end.

(** *** Phone number formatting *)

Definition formatPhoneNumber (phoneNumber : string) : string :=
  if negb (JS.truthy phoneNumber) then ""
  else
    let cleaned := JS.removeAll (fun c => negb (JS.isDigit c)) phoneNumber in
    if JS.len cleaned =? 10
    then "+91 " +:+ JS.slice cleaned 0 (Some 5) +:+ " "
         +:+ JS.slice cleaned 5 None
    else if JS.len cleaned >? 10
    then
      let countryCode := JS.slice cleaned 0 (Some (-10)) in
      let number := JS.slice cleaned (-10) None in
      "+" +:+ countryCode +:+ " " +:+ JS.slice number 0 (Some 5) +:+ " "
      +:+ JS.slice number 5 None
    else phoneNumber.

(** *** Joining *)

(** [{ ...localTrip, currentPassengers: localTrip.currentPassengers + 1 }] *)
Definition updatedTrip (t : Trip) : Trip :=
  {| id := id t; from := from t; to := to t;
     departureTime := departureTime t;
     maxPassengers := maxPassengers t;
     currentPassengers := currentPassengers t + 1;
     pricePerPerson := pricePerPerson t;
     description := description t;
     driverId := driverId t; driver := driver t;
     userRole := userRole t; passengers := passengers t |}.

Definition handleJoin (p : Props) (api : Api) : Eff.M State unit :=
  t <- Eff.gets localTrip ;;
  match onJoin p with
  | None =>
      setIsLoading true ;;;
      Eff.tryFinally
        (Eff.tryCatch
           (awaitCall (CallJoinTrip (id t)) (joinTrip api (id t)) ;;;
            setLocalTrip (updatedTrip t) ;;;
            callOnUpdate p (updatedTrip t) ;;;
            setIsAnimating true ;;;
            setTimeout 1000)
           (fun message => alert message))
        (setIsLoading false)
  | Some f =>
      setIsLoading true ;;;
      Eff.tryFinally
        (Eff.tryCatch
           (awaitCall (CallOnJoin (id t)) (f (id t)) ;;;
            setIsAnimating true ;;;
            setTimeout 1000)
           (fun message => alert message))
        (setIsLoading false)
  end.

End TripCard.

(** ** URI components *)

Module URI.

(** The characters [encodeURIComponent] leaves as they are: letters,
    digits and [- _ . ! ~ * ' ( )]. *)
Definition isUnreserved (c : ascii) : bool :=
  let n := JS.code c in
  ((65 <=? n) && (n <=? 90)) || ((97 <=? n) && (n <=? 122))
  || ((48 <=? n) && (n <=? 57))
  || (n =? 45) || (n =? 95) || (n =? 46) || (n =? 33) || (n =? 126)
  || (n =? 42) || (n =? 39) || (n =? 40) || (n =? 41).

Definition hexDigit (d : Z) : ascii :=
  ascii_of_N (Z.to_N (if d <? 10 then 48 + d else 55 + d)).

(** [%XX], in upper-case hexadecimal. *)
Definition percent (byte : Z) : string :=
  String "%" (String (hexDigit (byte / 16))
                (String (hexDigit (byte mod 16)) EmptyString)).

(** The UTF-8 bytes of a code unit below 256. *)
Definition utf8 (n : Z) : list Z :=
  if n <? 128 then [n] else [192 + n / 64; 128 + n mod 64].

Definition encodeChar (c : ascii) : string :=
  if isUnreserved c then String c EmptyString
  else fold_right (fun b acc => percent b +:+ acc) EmptyString
         (utf8 (JS.code c)).

Fixpoint encodeURIComponent (s : string) : string :=
  match s with
  | EmptyString => EmptyString
  | String c r => encodeChar c +:+ encodeURIComponent r
  end.

(** What an encoded component is made of. *)
Definition isSafe (c : ascii) : bool :=
  isUnreserved c || (JS.code c =? 37).

Fixpoint allChars (p : ascii -> bool) (s : string) : bool :=
  match s with
  | EmptyString => true
  | String c r => p c && allChars p r
  end.

End URI.

(** ** The trip card: contacting, editing, deleting *)

Module Card.

(** How the host writes the date and the time of day of
    [new Date(departureTime)]; both depend on its locale and zone. *)
Record Host : Type := {
  toLocaleDateString : string -> string;
  toLocaleTimeString : string -> string
}.

Definition newline : string := String (ascii_of_N 10) EmptyString.

(** [array.join(sep)] *)
Fixpoint join (sep : string) (l : list string) : string :=
  match l with
  | [] => EmptyString
  | [x] => x
  | x :: rest => x +:+ sep +:+ join sep rest
  end.

(** [x || fallback] on strings. *)
Definition orElse (x fallback : string) : string :=
  if JS.truthy x then x else fallback.

(** Each handler below assigns [window.location.href] at most once:
    the result is the URI navigated to, or [None]. *)
Definition handlePhoneCall (phoneNumber : string) : option string :=
  if JS.truthy phoneNumber then Some ("tel:" +:+ phoneNumber) else None.

Definition smsMessage (h : Host) (t : TripCard.Trip) (passengerName : string)
  : string :=
  "Hi " +:+ passengerName
  +:+ ", this is regarding our shared trip from " +:+ TripCard.from t
  +:+ " to " +:+ TripCard.to t +:+ " on "
  +:+ toLocaleDateString h (TripCard.departureTime t) +:+ ".".

Definition handleSMS (h : Host) (t : TripCard.Trip)
    (phoneNumber passengerName : string) : option string :=
  if JS.truthy phoneNumber
  then Some ("sms:" +:+ phoneNumber +:+ "?body="
             +:+ URI.encodeURIComponent (smsMessage h t passengerName))
  else None.

Definition emailSubject (t : TripCard.Trip) : string :=
  "Trip Details: " +:+ TripCard.from t +:+ " to " +:+ TripCard.to t.

(** [${user?.name}] *)
Definition userNameText (user : option TripCard.User) : string :=
  match user with
  | Some u => TripCard.user_name u
  | None => "undefined"
  end.

Definition emailBody (h : Host) (user : option TripCard.User)
    (t : TripCard.Trip) (passengerName : string) : string :=
  "Hi " +:+ passengerName +:+ "," +:+ newline +:+ newline
  +:+ "This is regarding our shared trip:" +:+ newline +:+ newline
  +:+ "From: " +:+ TripCard.from t +:+ newline
  +:+ "To: " +:+ TripCard.to t +:+ newline
  +:+ "Date: " +:+ toLocaleDateString h (TripCard.departureTime t)
  +:+ newline
  +:+ "Time: " +:+ toLocaleTimeString h (TripCard.departureTime t)
  +:+ newline +:+ newline
  +:+ "Looking forward to the trip!" +:+ newline +:+ newline
  +:+ "Best regards," +:+ newline +:+ userNameText user.

Definition handleEmail (h : Host) (user : option TripCard.User)
    (t : TripCard.Trip) (email passengerName : string) : option string :=
  if JS.truthy email
  then Some ("mailto:" +:+ email
             +:+ "?subject=" +:+ URI.encodeURIComponent (emailSubject t)
             +:+ "&body="
             +:+ URI.encodeURIComponent (emailBody h user t passengerName))
  else None.

(** [passengers.map(p => p.phone).filter(Boolean)] *)
Definition phonesOf (ps : list TripCard.Passenger) : list string :=
  omap (fun p =>
          match TripCard.passenger_phone p with
          | Some ph => if JS.truthy ph then Some ph else None
          | None => None
          end) ps.

Definition allPhones (t : TripCard.Trip) : string :=
  orElse (join "," (phonesOf (TripCard.passengers t))) "".

Definition groupMessage (h : Host) (t : TripCard.Trip) : string :=
  "Hi everyone! This is regarding our shared trip from " +:+ TripCard.from t
  +:+ " to " +:+ TripCard.to t +:+ " on "
  +:+ toLocaleDateString h (TripCard.departureTime t) +:+ " at "
  +:+ toLocaleTimeString h (TripCard.departureTime t)
  +:+ ". Looking forward to the trip!".

(** The button that messages all passengers. *)
Definition handleContactAll (h : Host) (t : TripCard.Trip) : option string :=
  if JS.truthy (allPhones t)
  then Some ("sms:" +:+ allPhones t +:+ "?body="
             +:+ URI.encodeURIComponent (groupMessage h t))
  else None.

(** *** The phone sections of the card *)

(** [localTrip.driver?.phone || user?.phone || ''] *)
Definition initiatorPhone (user : option TripCard.User) (t : TripCard.Trip)
  : string :=
  let driverPhone :=
    match TripCard.driver t with
    | Some d => TripCard.driver_phone d
    | None => ""
    end in
  let userPhone :=
    match user with
    | Some u => TripCard.user_phone u
    | None => ""
    end in
  orElse (orElse driverPhone userPhone) "".

(** "Contact Trip Initiator": the number shown, when the section is. *)
Definition initiatorSection (user : option TripCard.User) (t : TripCard.Trip)
  : option string :=
  if JS.truthy (initiatorPhone user t) && negb (TripCard.isOwner user t)
  then Some (TripCard.formatPhoneNumber (initiatorPhone user t))
  else None.

(** "Your contact": the number shown, when the section is. *)
Definition ownSection (user : option TripCard.User) (t : TripCard.Trip)
  : option string :=
  match user with
  | Some u =>
      if TripCard.isOwner user t && JS.truthy (TripCard.user_phone u)
      then Some (TripCard.formatPhoneNumber (TripCard.user_phone u))
      else None
  | None => None
  end.

(** *** The classes of the card *)

(** [isAnimating ? 'animate-pulse bg-green-50' : ''] *)
Definition pulseClass (isAnimating : bool) : string :=
  if isAnimating then "animate-pulse bg-green-50" else "".

(** [isAnimating && 'animate-fade-out' ? 'opacity-0 scale-95'
    : 'opacity-100 scale-100']; the condition is [false] or the string. *)
Definition fadeClass (isAnimating : bool) : string :=
  let condition := if isAnimating then Some "animate-fade-out" else None in
  match condition with
  | Some s => if JS.truthy s then "opacity-0 scale-95"
              else "opacity-100 scale-100"
  | None => "opacity-100 scale-100"
  end.

(** *** Editing and deleting *)

(** The settled promise of a call that returns a value. *)
Inductive Result (A : Type) : Type :=
| Fulfilled (a : A)
| Failed (message : string).
Arguments Fulfilled {A} a.
Arguments Failed {A} message.

(** The callbacks given to [setTimeout]. *)
Inductive Callback : Type :=
| ClearAnimating
| NotifyDeleted (tripId : Z).

Inductive Effect : Type :=
| CallUpdateTrip (tripId : Z)
| CallDeleteTrip (tripId : Z)
| Settled (ok : bool)
| SetLocalTrip (t : TripCard.Trip)
| CallOnUpdate (t : TripCard.Trip)
| CallOnDelete (tripId : Z)
| Alert (message : string).

Record State : Type := {
  localTrip : TripCard.Trip;
  isLoading : bool;
  isAnimating : bool;
  isEditModalOpen : bool;
  isDeleteModalOpen : bool;
  (** Pending timers, oldest first, each with its delay. *)
  timers : list (Z * Callback);
  trace : list Effect
}.

Definition log (e : Effect) : Eff.M State unit :=
  Eff.modify (fun st =>
    {| localTrip := localTrip st; isLoading := isLoading st;
       isAnimating := isAnimating st;
       isEditModalOpen := isEditModalOpen st;
       isDeleteModalOpen := isDeleteModalOpen st;
       timers := timers st; trace := trace st ++ [e] |}).

Definition setIsLoading (b : bool) : Eff.M State unit :=
  Eff.modify (fun st =>
    {| localTrip := localTrip st; isLoading := b;
       isAnimating := isAnimating st;
       isEditModalOpen := isEditModalOpen st;
       isDeleteModalOpen := isDeleteModalOpen st;
       timers := timers st; trace := trace st |}).

Definition setIsAnimating (b : bool) : Eff.M State unit :=
  Eff.modify (fun st =>
    {| localTrip := localTrip st; isLoading := isLoading st;
       isAnimating := b;
       isEditModalOpen := isEditModalOpen st;
       isDeleteModalOpen := isDeleteModalOpen st;
       timers := timers st; trace := trace st |}).

Definition setIsEditModalOpen (b : bool) : Eff.M State unit :=
  Eff.modify (fun st =>
    {| localTrip := localTrip st; isLoading := isLoading st;
       isAnimating := isAnimating st;
       isEditModalOpen := b;
       isDeleteModalOpen := isDeleteModalOpen st;
       timers := timers st; trace := trace st |}).

Definition setIsDeleteModalOpen (b : bool) : Eff.M State unit :=
  Eff.modify (fun st =>
    {| localTrip := localTrip st; isLoading := isLoading st;
       isAnimating := isAnimating st;
       isEditModalOpen := isEditModalOpen st;
       isDeleteModalOpen := b;
       timers := timers st; trace := trace st |}).

Definition setLocalTrip (t : TripCard.Trip) : Eff.M State unit :=
  Eff.modify (fun st =>
    {| localTrip := t; isLoading := isLoading st;
       isAnimating := isAnimating st;
       isEditModalOpen := isEditModalOpen st;
       isDeleteModalOpen := isDeleteModalOpen st;
       timers := timers st; trace := trace st |}) ;;;
  log (SetLocalTrip t).

Definition setTimeout (cb : Callback) (delay : Z) : Eff.M State unit :=
  Eff.modify (fun st =>
    {| localTrip := localTrip st; isLoading := isLoading st;
       isAnimating := isAnimating st;
       isEditModalOpen := isEditModalOpen st;
       isDeleteModalOpen := isDeleteModalOpen st;
       timers := timers st ++ [(delay, cb)]; trace := trace st |}).

Definition alert (message : string) : Eff.M State unit := log (Alert message).

(** [onUpdate?.(t)] and [onDelete?.(id)] *)
Definition callOnUpdate (p : TripCard.Props) (t : TripCard.Trip)
  : Eff.M State unit :=
  match TripCard.onUpdate p with
  | Some f => log (CallOnUpdate t) ;;; await (f t)
  | None => Eff.ret tt
  end.

Definition callOnDelete (p : TripCard.Props) (tripId : Z)
  : Eff.M State unit :=
  match TripCard.onDelete p with
  | Some f => log (CallOnDelete tripId) ;;; await (f tripId)
  | None => Eff.ret tt
  end.

(** The API client, for the data of the edit form whatever they are:
    [handleEdit] hands [editData] over as it is. *)
Record Api (EditData : Type) : Type := {
  updateTrip : Z -> EditData -> Result TripCard.Trip;
  deleteTrip : Z -> Outcome
}.
Arguments updateTrip {EditData} _ _ _.
Arguments deleteTrip {EditData} _ _.

Definition awaitResult {A} (call : Effect) (r : Result A) : Eff.M State A :=
  log call ;;;
  match r with
  | Fulfilled a => log (Settled true) ;;; Eff.ret a
  | Failed e => log (Settled false) ;;; Eff.throw e
  end.

Definition awaitOutcome (call : Effect) (o : Outcome) : Eff.M State unit :=
  log call ;;;
  match o with
  | Resolved => log (Settled true)
  | Rejected e => log (Settled false) ;;; Eff.throw e
  end.

Definition handleEdit {EditData} (p : TripCard.Props) (api : Api EditData)
    (editData : EditData) : Eff.M State unit :=
  t <- Eff.gets localTrip ;;
  setIsLoading true ;;;
  Eff.tryFinally
    (Eff.tryCatch
       (updatedTrip <- awaitResult (CallUpdateTrip (TripCard.id t))
                         (updateTrip api (TripCard.id t) editData) ;;
        setLocalTrip updatedTrip ;;;
        callOnUpdate p updatedTrip ;;;
        setIsEditModalOpen false ;;;
        setIsAnimating true ;;;
        setTimeout ClearAnimating 1000)
       (fun message => alert message))
    (setIsLoading false).

Definition handleDelete {EditData} (p : TripCard.Props) (api : Api EditData)
  : Eff.M State unit :=
  t <- Eff.gets localTrip ;;
  setIsLoading true ;;;
  Eff.tryCatch
    (awaitOutcome (CallDeleteTrip (TripCard.id t))
       (deleteTrip api (TripCard.id t)) ;;;
     setIsAnimating true ;;;
     setTimeout (NotifyDeleted (TripCard.id t)) 500)
    (fun message => alert message ;;; setIsLoading false).

(** A timer expires: its callback runs. *)
Definition runCallback (p : TripCard.Props) (cb : Callback)
  : Eff.M State unit :=
  match cb with
  | ClearAnimating => setIsAnimating false
  | NotifyDeleted tripId => callOnDelete p tripId
  end.

(** The oldest pending timer expires. *)
Definition expire (p : TripCard.Props) (st : State) : State :=
  match timers st with
  | [] => st
  | (_, cb) :: rest =>
      Eff.exec (runCallback p cb)
        {| localTrip := localTrip st; isLoading := isLoading st;
           isAnimating := isAnimating st;
           isEditModalOpen := isEditModalOpen st;
           isDeleteModalOpen := isDeleteModalOpen st;
           timers := rest; trace := trace st |}
  end.

(** The card with the edit or the delete dialog open, nothing pending. *)
Definition opened (t : TripCard.Trip) (edit delete : bool) : State :=
  {| localTrip := t; isLoading := false; isAnimating := false;
     isEditModalOpen := edit; isDeleteModalOpen := delete;
     timers := []; trace := [] |}.

End Card.

(** * Vocabulary of the properties and sample data *)

(** An edit of [from] or [to] to a value of two code units or more. *)
Definition liveEdit (ev : SearchForm.Event) : Prop :=
  match ev with
  | SearchForm.Change name value =>
      SearchForm.isLocation name = true /\ 2 <= JS.len value
  | _ => False
  end.

(** Such edits in a row, each one less than [wait] milliseconds after
    the edit before it, the last edit so far being at [lastEdit] and
    the last event at [prev]; between them the parent may render the
    form again, with the same [onSearch] function. *)
Fixpoint calm (lastEdit prev : Z) (evs : list (Z * Mounted.Event)) : Prop :=
  match evs with
  | [] => True
  | (t, Mounted.Form ev) :: rest =>
      prev <= t < lastEdit + SearchForm.wait /\ liveEdit ev /\ calm t t rest
  | (t, Mounted.Render newOnSearch _) :: rest =>
      prev <= t < lastEdit + SearchForm.wait /\ newOnSearch = None
      /\ calm lastEdit t rest
  end.

(** The instant of the last edit of a run, [t0] if it has none. *)
Fixpoint lastEditTime (t0 : Z) (evs : list (Z * Mounted.Event)) : Z :=
  match evs with
  | [] => t0
  | (t, Mounted.Form _) :: rest => lastEditTime t rest
  | (_, Mounted.Render _ _) :: rest => lastEditTime t0 rest
  end.

(** Text of code units below 256. Every string of the embedding is
    such text; the condition is stated where a property of the code
    holds of such text only. *)
Definition latin1 (s : string) : Prop :=
  URI.allChars (fun c => JS.code c <? 256) s = true.

Definition quietProps : SearchForm.Props :=
  {| SearchForm.onSearch := fun _ => Resolved; SearchForm.isLoading := false |}.

(** Noon UTC of 2024-03-10, in a zone five and a half hours ahead. *)
Definition noonIST : SearchForm.Clock :=
  {| SearchForm.now := 19792 * 86400000 + 43200000;
     SearchForm.tzOffset := 19800000 |}.

Definition formOf (fd : SearchForm.SearchFormData) : SearchForm.State :=
  {| SearchForm.formData := fd; SearchForm.errors := ∅;
     SearchForm.pending := None; SearchForm.searches := [] |}.

(** "De" and then "Del" typed into [to], 300 ms apart, the parent
    rendering in between with its [onSearch] function unchanged... *)
Definition typing_De_Del : list (Z * Mounted.Event) :=
  [(1000, Mounted.Form (SearchForm.Change SearchForm.name_to "De"));
   (1100, Mounted.Render None true);
   (1300, Mounted.Form (SearchForm.Change SearchForm.name_to "Del"))].

(** ... and with another [onSearch] function object. *)
Definition typing_De_Del_rerendered : list (Z * Mounted.Event) :=
  [(1000, Mounted.Form (SearchForm.Change SearchForm.name_to "De"));
   (1100, Mounted.Render (Some (fun _ => Resolved)) true);
   (1300, Mounted.Form (SearchForm.Change SearchForm.name_to "Del"))].

Definition form_De : SearchForm.SearchFormData :=
  {| SearchForm.from := ""; SearchForm.to := "De";
     SearchForm.departureDate := ""; SearchForm.maxPrice := 0 |}.

Definition form_Del : SearchForm.SearchFormData :=
  {| SearchForm.from := ""; SearchForm.to := "Del";
     SearchForm.departureDate := ""; SearchForm.maxPrice := 0 |}.

Definition sameCityForm : SearchForm.SearchFormData :=
  {| SearchForm.from := " Pune "; SearchForm.to := "pune";
     SearchForm.departureDate := ""; SearchForm.maxPrice := 0 |}.

Definition paddedForm : SearchForm.SearchFormData :=
  {| SearchForm.from := " Delhi"; SearchForm.to := "Pun";
     SearchForm.departureDate := ""; SearchForm.maxPrice := 0 |}.

Definition fullTrip : TripCard.Trip :=
  {| TripCard.id := 7; TripCard.from := "Mumbai"; TripCard.to := "Pune";
     TripCard.departureTime := "2030-01-01T09:00:00.000Z";
     TripCard.maxPassengers := 3; TripCard.currentPassengers := 3;
     TripCard.pricePerPerson := 250; TripCard.description := "";
     TripCard.driverId := 1; TripCard.driver := None;
     TripCard.userRole := None; TripCard.passengers := [] |}.

Definition openTrip : TripCard.Trip :=
  {| TripCard.id := 7; TripCard.from := "Mumbai"; TripCard.to := "Pune";
     TripCard.departureTime := "2030-01-01T09:00:00.000Z";
     TripCard.maxPassengers := 3; TripCard.currentPassengers := 2;
     TripCard.pricePerPerson := 250; TripCard.description := "";
     TripCard.driverId := 1; TripCard.driver := None;
     TripCard.userRole := None; TripCard.passengers := [] |}.

Definition directProps : TripCard.Props :=
  {| TripCard.onUpdate := None; TripCard.onDelete := None;
     TripCard.showActions := true; TripCard.onJoin := None |}.

Definition callbackProps : TripCard.Props :=
  {| TripCard.onUpdate := None; TripCard.onDelete := None;
     TripCard.showActions := true;
     TripCard.onJoin := Some (fun _ => Resolved) |}.

Definition apiOk : TripCard.Api := {| TripCard.joinTrip := fun _ => Resolved |}.

Definition apiDown : TripCard.Api :=
  {| TripCard.joinTrip := fun _ => Rejected "Trip is full" |}.

Definition stranger : TripCard.User :=
  {| TripCard.user_id := 2; TripCard.user_name := "Asha";
     TripCard.user_phone := "9876543210" |}.

(** The stored price, the pending payload and every payload sent are
    not negative. *)
Definition pricesNonNegative (st : SearchForm.State) : Prop :=
  0 <= SearchForm.maxPrice (SearchForm.formData st)
  /\ (forall t d, SearchForm.pending st = Some (t, d) ->
                  0 <= SearchForm.maxPrice d)
  /\ (forall d, In d (SearchForm.searches st) -> 0 <= SearchForm.maxPrice d).

(** [trimEnd] computed from the left: the white space that only white
    space follows is dropped. *)
Fixpoint trimEndRec (s : string) : string :=
  match s with
  | EmptyString => EmptyString
  | String c r =>
      match trimEndRec r with
      | EmptyString => if JS.isWhiteSpace c then EmptyString
                       else String c EmptyString
      | r' => String c r'
      end
  end.

Definition failingProps : SearchForm.Props :=
  {| SearchForm.onSearch := fun _ => Rejected "Network Error";
     SearchForm.isLoading := false |}.

Definition validForm : SearchForm.SearchFormData :=
  {| SearchForm.from := "Mumbai"; SearchForm.to := "Pune";
     SearchForm.departureDate := ""; SearchForm.maxPrice := 0 |}.

(** The same instant as [noonIST], in a zone five hours behind UTC. *)
Definition noonEST : SearchForm.Clock :=
  {| SearchForm.now := 19792 * 86400000 + 43200000;
     SearchForm.tzOffset := - 18000000 |}.

Definition dated (day : string) : SearchForm.SearchFormData :=
  {| SearchForm.from := "Mumbai"; SearchForm.to := "Pune";
     SearchForm.departureDate := day; SearchForm.maxPrice := 0 |}.

(** The form with a live search pending since the instant 1000. *)
Definition searching : SearchForm.State :=
  {| SearchForm.formData := validForm; SearchForm.errors := ∅;
     SearchForm.pending := Some (1000, paddedForm);
     SearchForm.searches := [] |}.

Definition editedTrip : TripCard.Trip :=
  {| TripCard.id := 7; TripCard.from := "Mumbai"; TripCard.to := "Nashik";
     TripCard.departureTime := "2030-01-02T09:00:00.000Z";
     TripCard.maxPassengers := 4; TripCard.currentPassengers := 2;
     TripCard.pricePerPerson := 300; TripCard.description := "";
     TripCard.driverId := 1; TripCard.driver := None;
     TripCard.userRole := Some TripCard.role_driver;
     TripCard.passengers := [] |}.

(** An API that accepts every call; the edit data are a text here. *)
Definition cardApiOk : Card.Api string :=
  {| Card.updateTrip := fun _ _ => Card.Fulfilled editedTrip;
     Card.deleteTrip := fun _ => Resolved |}.

Definition cardApiDown : Card.Api string :=
  {| Card.updateTrip := fun _ _ => Card.Failed "Not allowed";
     Card.deleteTrip := fun _ => Rejected "Not allowed" |}.

Definition ownerProps : TripCard.Props :=
  {| TripCard.onUpdate := Some (fun _ => Resolved);
     TripCard.onDelete := Some (fun _ => Resolved);
     TripCard.showActions := true; TripCard.onJoin := None |}.

Definition brokenParentProps : TripCard.Props :=
  {| TripCard.onUpdate := Some (fun _ => Rejected "render failed");
     TripCard.onDelete := None;
     TripCard.showActions := true; TripCard.onJoin := None |}.

(** * Properties *)

(** ** The primitives on examples *)

Example trim_ex : JS.trim "  New Delhi " = "New Delhi".
Proof. reflexivity. Qed.

Example parseInt_ex :
  JS.parseInt "42" = Some 42 /\ JS.parseInt " -7.5" = Some (-7)
  /\ JS.parseInt "1e3" = Some 1 /\ JS.parseInt "abc" = None
  /\ JS.parseInt "0x1A" = Some 26 /\ JS.parseInt "-" = None.
Proof. repeat split; reflexivity. Qed.

Example slice_ex :
  JS.slice "919876543210" 0 (Some (-10)) = "91"
  /\ JS.slice "919876543210" (-10) None = "9876543210"
  /\ JS.slice "9876543210" 5 None = "43210".
Proof. repeat split; reflexivity. Qed.

Example date_ex :
  JS.dateOfString "1970-01-02" = Some 86400000
  /\ JS.dateOfString "2024-02-29" = Some (19782 * 86400000)
  /\ JS.dateOfString "2023-02-29" = None.
Proof. repeat split; reflexivity. Qed.

(** ** Substrings *)

Section Substring.

Lemma substring_length (s : string) : forall n m : nat,
  (n + m <= String.length s)%nat ->
  String.length (String.substring n m s) = m.
Proof.
  induction s as [|c s IH]; intros n m H; simpl in *.
  - destruct n, m; simpl; lia.
  - destruct n as [|n].
    + destruct m as [|m]; simpl; [reflexivity|].
      f_equal. apply (IH 0%nat m). lia.
    + apply IH. lia.
Qed.

Lemma substring_substring (s : string) : forall a b c d : nat,
  (a + b <= d)%nat ->
  String.substring a b (String.substring c d s) = String.substring (c + a) b s.
Proof.
  induction s as [|x s IH]; intros a b c d H.
  - destruct c, d, a, b; reflexivity.
  - destruct c as [|c].
    + destruct d as [|d].
      * assert (a = 0%nat) by lia. assert (b = 0%nat) by lia. subst.
        reflexivity.
      * simpl. destruct a as [|a].
        -- destruct b as [|b]; [reflexivity|]. f_equal.
           apply (IH 0%nat b 0%nat d). lia.
        -- apply (IH a b 0%nat d). lia.
    + simpl. apply IH. exact H.
Qed.

Lemma removeAll_nondigits_allDigits (s : string) :
  JS.allDigits (JS.removeAll (fun c => negb (JS.isDigit c)) s) = true.
Proof.
  induction s as [|c s IH]; simpl; [reflexivity|].
  destruct (JS.isDigit c) eqn:E; simpl; [rewrite E|]; exact IH.
Qed.

End Substring.

(** ** Phone numbers *)

(** C7. [formatPhoneNumber] keeps the digits of its input and nothing
    else; ten digits give ["+91 "], the first five, a space and the last
    five; more than ten give ["+"], the digits before the last ten as
    country code, and the last ten in two groups of five; in every other
    case the input comes back as it is. The two examples of the
    specification both give ["+91 98765 43210"]. *)
Theorem formatPhoneNumber_spec :
  (forall phoneNumber : string,
    let digits := JS.removeAll (fun c => negb (JS.isDigit c)) phoneNumber in
    let n := String.length digits in
    JS.allDigits digits = true
    /\ (n = 10%nat ->
        TripCard.formatPhoneNumber phoneNumber
        = "+91 " +:+ String.substring 0 5 digits +:+ " "
          +:+ String.substring 5 5 digits)
    /\ ((10 < n)%nat ->
        TripCard.formatPhoneNumber phoneNumber
        = "+" +:+ String.substring 0 (n - 10) digits +:+ " "
          +:+ String.substring (n - 10) 5 digits +:+ " "
          +:+ String.substring (n - 5) 5 digits)
    /\ ((n < 10)%nat -> TripCard.formatPhoneNumber phoneNumber = phoneNumber))
  /\ TripCard.formatPhoneNumber "9876543210" = "+91 98765 43210"
  /\ TripCard.formatPhoneNumber "919876543210" = "+91 98765 43210".
Proof.
  split; [|split; reflexivity].
  intros phoneNumber digits n.
  split; [apply removeAll_nondigits_allDigits|].
  assert (Hlen : JS.len digits = Z.of_nat n) by reflexivity.
  unfold TripCard.formatPhoneNumber. fold digits.
  destruct phoneNumber as [|c0 rest] eqn:Ephone.
  { simpl in *. subst n digits. simpl.
    repeat split; intros; try reflexivity; simpl in *; lia. }
  rewrite <- Ephone in *. replace (JS.truthy phoneNumber) with true
    by (rewrite Ephone; reflexivity).
  cbn [negb].
  repeat split.
  - intros Hn. rewrite Hlen, Hn. change (Z.of_nat 10 =? 10) with true.
    unfold JS.slice. rewrite Hlen, Hn. reflexivity.
  - intros Hn.
    destruct (Z.eqb_spec (JS.len digits) 10) as [E|_]; [lia|].
    destruct (Z.gtb_spec (JS.len digits) 10) as [_|E]; [|lia].
    assert (Hcc : JS.slice digits 0 (Some (-10))
                  = String.substring 0 (n - 10) digits).
    { unfold JS.slice, JS.clampIndex. rewrite Hlen.
      change (0 <? 0) with false. change (-10 <? 0) with true.
      cbn iota. f_equal; lia. }
    assert (Hnum : JS.slice digits (-10) None
                   = String.substring (n - 10) 10 digits).
    { unfold JS.slice, JS.clampIndex. rewrite Hlen.
      change (0 <? 0) with false. change (-10 <? 0) with true.
      cbn iota. f_equal; lia. }
    rewrite Hcc, Hnum.
    set (number := String.substring (n - 10) 10 digits).
    assert (Hnl : JS.len number = 10).
    { unfold JS.len, number. rewrite substring_length; [reflexivity|].
      fold n. lia. }
    unfold JS.slice. rewrite Hnl.
    change (JS.clampIndex 10 0) with 0. change (JS.clampIndex 10 5) with 5.
    change (Z.to_nat 0) with 0%nat. change (Z.to_nat 5) with 5%nat.
    change (Z.to_nat ((5 - 0) `max` 0)) with 5%nat.
    change (Z.to_nat ((10 - 5) `max` 0)) with 5%nat.
    unfold number.
    rewrite (substring_substring digits 0 5 (n - 10) 10) by lia.
    rewrite (substring_substring digits 5 5 (n - 10) 10) by lia.
    repeat f_equal; lia.
  - intros Hn.
    destruct (Z.eqb_spec (JS.len digits) 10) as [E|_]; [lia|].
    destruct (Z.gtb_spec (JS.len digits) 10) as [E|_]; [lia|].
    reflexivity.
Qed.

Lemma formatPhoneNumber_spec_witness :
  String.length (JS.removeAll (fun c => negb (JS.isDigit c)) "98765-43210")
  = 10%nat
  /\ TripCard.formatPhoneNumber "98765-43210" = "+91 98765 43210"
  /\ TripCard.formatPhoneNumber "+1 (98765) 43210" = "+1 98765 43210"
  /\ TripCard.formatPhoneNumber "ext. 4321" = "ext. 4321".
Proof.
  split; [reflexivity|]. split; [|split].
  - exact (proj1 (proj2 (proj1 formatPhoneNumber_spec "98765-43210"))
             eq_refl).
  - apply (proj1 (proj2 (proj2 (proj1 formatPhoneNumber_spec
                                   "+1 (98765) 43210")))).
    cbv. lia.
  - apply (proj2 (proj2 (proj2 (proj1 formatPhoneNumber_spec
                                   "ext. 4321")))).
    cbv. lia.
Defined.

(** ** Roles and the join control *)

(** C6. [canJoin] holds exactly when the user is neither owner nor
    passenger and the occupancy is below the capacity, so it fails as
    soon as one of [isOwner], [isPassenger] or
    [currentPassengers >= maxPassengers] holds; [isFull] holds exactly
    when [currentPassengers >= maxPassengers]; and a card whose
    occupancy equals its capacity renders no enabled join control. *)
Theorem canJoin_isFull_spec
    (p : TripCard.Props) (user : option TripCard.User) (st : TripCard.State) :
  let t := TripCard.localTrip st in
  (TripCard.canJoin user t = true ->
     TripCard.isOwner user t = false /\ TripCard.isPassenger t = false
     /\ TripCard.currentPassengers t < TripCard.maxPassengers t)
  /\ TripCard.canJoin user t
     = negb (TripCard.isOwner user t || TripCard.isPassenger t
             || (TripCard.currentPassengers t >=? TripCard.maxPassengers t))
  /\ (TripCard.isFull t = true
      <-> TripCard.currentPassengers t >= TripCard.maxPassengers t)
  /\ (TripCard.currentPassengers t = TripCard.maxPassengers t ->
      forall c, In c (TripCard.actionButtons p user st) ->
                TripCard.isEnabledJoin c = false).
Proof.
  intros t. unfold TripCard.canJoin, TripCard.isFull.
  repeat split.
  - destruct (TripCard.isOwner user t); [discriminate|reflexivity].
  - destruct (TripCard.isOwner user t), (TripCard.isPassenger t);
      try discriminate; reflexivity.
  - destruct (TripCard.isOwner user t), (TripCard.isPassenger t);
      try discriminate. simpl in H. lia.
  - destruct (TripCard.isOwner user t), (TripCard.isPassenger t);
      simpl; try reflexivity. lia.
  - intros H. lia.
  - intros H. lia.
  - intros Hfull c Hin. unfold TripCard.actionButtons in Hin. fold t in Hin.
    unfold TripCard.canJoin in Hin.
    replace (TripCard.currentPassengers t <? TripCard.maxPassengers t)
      with false in Hin by lia.
    rewrite !andb_false_r in Hin. simpl in Hin.
    unfold TripCard.when in Hin.
    repeat match type of Hin with
           | context [if ?b then _ else _] => destruct b
           end;
      simpl in Hin; intuition (subst; reflexivity).
Qed.

Lemma canJoin_isFull_spec_witness :
  TripCard.canJoin (Some stranger) openTrip = true
  /\ (TripCard.isOwner (Some stranger) openTrip = false
      /\ TripCard.isPassenger openTrip = false
      /\ TripCard.currentPassengers openTrip
         < TripCard.maxPassengers openTrip)
  /\ TripCard.currentPassengers fullTrip = TripCard.maxPassengers fullTrip
  /\ In (TripCard.Badge "Trip Full")
        (TripCard.actionButtons directProps (Some stranger)
           (TripCard.mount fullTrip))
  /\ TripCard.isEnabledJoin (TripCard.Badge "Trip Full") = false.
Proof.
  split; [reflexivity|]. split.
  - exact (proj1 (canJoin_isFull_spec directProps (Some stranger)
                    (TripCard.mount openTrip)) eq_refl).
  - split; [reflexivity|]. split; [left; reflexivity|].
    apply (proj2 (proj2 (proj2 (canJoin_isFull_spec directProps
                                  (Some stranger)
                                  (TripCard.mount fullTrip))))
             eq_refl).
    left. reflexivity.
Defined.

Example full_card_renders_badge :
  TripCard.actionButtons directProps (Some stranger) (TripCard.mount fullTrip)
  = [TripCard.Badge "Trip Full"]
  /\ TripCard.actionButtons directProps (Some stranger)
       (TripCard.mount openTrip)
     = [TripCard.JoinButton false "Join Trip"].
Proof. split; reflexivity. Qed.

(** ** Joining a trip *)

Ltac run_join :=
  unfold TripCard.handleJoin, TripCard.awaitCall, TripCard.callOnUpdate,
    TripCard.setLocalTrip, TripCard.setIsLoading, TripCard.setIsAnimating,
    TripCard.setTimeout, TripCard.alert, TripCard.log, await,
    Eff.exec, Eff.tryFinally, Eff.tryCatch, Eff.bind, Eff.gets, Eff.modify,
    Eff.ret, Eff.throw;
  cbn beta iota.

(** The direct path when the call is rejected: the message is shown and
    nothing else happens. *)
Lemma handleJoin_direct_rejected p api st e :
  TripCard.onJoin p = None ->
  TripCard.joinTrip api (TripCard.id (TripCard.localTrip st)) = Rejected e ->
  Eff.exec (TripCard.handleJoin p api) st
  = {| TripCard.localTrip := TripCard.localTrip st;
       TripCard.isLoading := false;
       TripCard.isAnimating := TripCard.isAnimating st;
       TripCard.trace :=
         TripCard.trace st
         ++ [TripCard.CallJoinTrip (TripCard.id (TripCard.localTrip st));
             TripCard.Settled (Rejected e); TripCard.Alert e] |}.
Proof.
  intros Hp Hapi. run_join. rewrite Hp. cbn beta iota. rewrite Hapi.
  cbn. rewrite <- !app_assoc. reflexivity.
Qed.

(** The direct path when the call resolves: the local trip is replaced
    by the incremented one after the promise has settled. *)
Lemma handleJoin_direct_resolved p api st :
  TripCard.onJoin p = None ->
  TripCard.joinTrip api (TripCard.id (TripCard.localTrip st)) = Resolved ->
  exists rest,
    Eff.exec (TripCard.handleJoin p api) st
    = {| TripCard.localTrip := TripCard.updatedTrip (TripCard.localTrip st);
         TripCard.isLoading := false;
         TripCard.isAnimating :=
           TripCard.isAnimating (Eff.exec (TripCard.handleJoin p api) st);
         TripCard.trace :=
           TripCard.trace st
           ++ TripCard.CallJoinTrip (TripCard.id (TripCard.localTrip st))
              :: TripCard.Settled Resolved
              :: TripCard.SetLocalTrip (TripCard.updatedTrip (TripCard.localTrip st))
              :: rest |}.
Proof.
  intros Hp Hapi. run_join. rewrite Hp. cbn beta iota. rewrite Hapi.
  cbn.
  destruct (TripCard.onUpdate p) as [f|]; cbn.
  - destruct (f (TripCard.updatedTrip (TripCard.localTrip st))) as [|e]; cbn;
      eexists; rewrite <- !app_assoc; cbn; reflexivity.
  - eexists; rewrite <- !app_assoc; cbn; reflexivity.
Qed.

(** The callback path never touches the local trip. *)
Lemma handleJoin_callback p api st f :
  TripCard.onJoin p = Some f ->
  let st' := Eff.exec (TripCard.handleJoin p api) st in
  TripCard.localTrip st' = TripCard.localTrip st
  /\ exists rest,
       TripCard.trace st'
       = TripCard.trace st
         ++ TripCard.CallOnJoin (TripCard.id (TripCard.localTrip st))
            :: TripCard.Settled (f (TripCard.id (TripCard.localTrip st)))
            :: rest
       /\ forall t, ~ In (TripCard.SetLocalTrip t) rest.
Proof.
  intros Hp. run_join. rewrite Hp. cbn beta iota.
  destruct (f (TripCard.id (TripCard.localTrip st))) as [|e]; cbn;
    (split; [reflexivity|]); eexists; rewrite <- !app_assoc; cbn;
    (split; [reflexivity|]); intros t Hin; cbn in Hin;
    intuition discriminate.
Qed.

(** C5. Without an [onJoin] callback: when [joinTrip] resolves, the
    local [currentPassengers] is the old value plus one, the other
    fields of the local trip being kept; when it is rejected, the
    message of the error is shown by [alert] and the local trip is the
    one from before the call. *)
Theorem direct_join_outcome (p : TripCard.Props) (api : TripCard.Api)
    (st : TripCard.State) :
  TripCard.onJoin p = None ->
  let t := TripCard.localTrip st in
  let st' := Eff.exec (TripCard.handleJoin p api) st in
  match TripCard.joinTrip api (TripCard.id t) with
  | Resolved =>
      TripCard.currentPassengers (TripCard.localTrip st')
      = TripCard.currentPassengers t + 1
      /\ TripCard.localTrip st' = TripCard.updatedTrip t
  | Rejected e =>
      TripCard.localTrip st' = t
      /\ TripCard.trace st'
         = TripCard.trace st
           ++ [TripCard.CallJoinTrip (TripCard.id t);
               TripCard.Settled (Rejected e); TripCard.Alert e]
  end.
Proof.
  intros Hp t st'.
  destruct (TripCard.joinTrip api (TripCard.id t)) as [|e] eqn:Hapi.
  - destruct (handleJoin_direct_resolved p api st Hp Hapi) as [rest Hrun].
    subst st'. rewrite Hrun. cbn. split; reflexivity.
  - subst st'. rewrite (handleJoin_direct_rejected p api st e Hp Hapi).
    cbn. split; reflexivity.
Qed.

Lemma direct_join_outcome_witness :
  TripCard.currentPassengers
    (TripCard.localTrip
       (Eff.exec (TripCard.handleJoin directProps apiOk)
          (TripCard.mount openTrip))) = 3
  /\ TripCard.localTrip
       (Eff.exec (TripCard.handleJoin directProps apiDown)
          (TripCard.mount openTrip)) = openTrip.
Proof.
  split.
  - exact (proj1 (direct_join_outcome directProps apiOk
                    (TripCard.mount openTrip) eq_refl)).
  - exact (proj1 (direct_join_outcome directProps apiDown
                    (TripCard.mount openTrip) eq_refl)).
Defined.

(** C1, as the specification states it, fails: with an [onJoin]
    callback that resolves, [currentPassengers] is not incremented; and
    without a callback, when [joinTrip] is rejected, it is not
    incremented either, so the increment does not come before the
    success of the call is known. *)
Lemma join_mutates_in_both_paths_counterexample :
  TripCard.currentPassengers
    (TripCard.localTrip
       (Eff.exec (TripCard.handleJoin callbackProps apiOk)
          (TripCard.mount openTrip)))
  <> TripCard.currentPassengers openTrip + 1
  /\ TripCard.currentPassengers
       (TripCard.localTrip
          (Eff.exec (TripCard.handleJoin directProps apiDown)
             (TripCard.mount openTrip)))
     <> TripCard.currentPassengers openTrip + 1.
Proof. split; vm_compute; discriminate. Qed.

(** C1, amended. [handleJoin] changes the local trip in the direct-API
    path only, and there only after the promise of [joinTrip] has
    resolved: the incremented trip is set right after the settled call,
    and when the call is rejected no trip is set at all; with an
    [onJoin] callback the local trip is left as it was, whatever the
    callback does. *)
Theorem join_updates_only_after_success (p : TripCard.Props)
    (api : TripCard.Api) (st : TripCard.State) :
  let t := TripCard.localTrip st in
  let st' := Eff.exec (TripCard.handleJoin p api) st in
  match TripCard.onJoin p with
  | Some f =>
      TripCard.localTrip st' = t
      /\ exists rest,
           TripCard.trace st'
           = TripCard.trace st
             ++ TripCard.CallOnJoin (TripCard.id t)
                :: TripCard.Settled (f (TripCard.id t)) :: rest
           /\ forall t', ~ In (TripCard.SetLocalTrip t') rest
  | None =>
      match TripCard.joinTrip api (TripCard.id t) with
      | Resolved =>
          TripCard.currentPassengers (TripCard.localTrip st')
          = TripCard.currentPassengers t + 1
          /\ exists rest,
               TripCard.trace st'
               = TripCard.trace st
                 ++ TripCard.CallJoinTrip (TripCard.id t)
                    :: TripCard.Settled Resolved
                    :: TripCard.SetLocalTrip (TripCard.updatedTrip t) :: rest
      | Rejected e =>
          TripCard.localTrip st' = t
          /\ TripCard.trace st'
             = TripCard.trace st
               ++ [TripCard.CallJoinTrip (TripCard.id t);
                   TripCard.Settled (Rejected e); TripCard.Alert e]
      end
  end.
Proof.
  intros t st'.
  destruct (TripCard.onJoin p) as [f|] eqn:Hp.
  - exact (handleJoin_callback p api st f Hp).
  - destruct (TripCard.joinTrip api (TripCard.id t)) as [|e] eqn:Hapi.
    + destruct (handleJoin_direct_resolved p api st Hp Hapi) as [rest Hrun].
      subst st'. rewrite Hrun. cbn. split; [reflexivity|].
      exists rest. reflexivity.
    + subst st'. rewrite (handleJoin_direct_rejected p api st e Hp Hapi).
      cbn. split; reflexivity.
Qed.

(** ** Validation and submit *)

Section Submit.

Import SearchForm.

Variable p : Props.
Variable c : Clock.

(** The state after a submit: the errors are those of the validation;
    [onSearch] is called, once and with [searchData], exactly when the
    validation found nothing; an error thrown by it replaces the
    errors by the failure message. *)
Lemma handleSubmit_exec (st : State) :
  let fd := formData st in
  Eff.exec (handleSubmit p c) st
  = if accepted c fd
    then {| formData := fd;
            errors := match onSearch p (searchData fd) with
                      | Resolved => newErrors c fd
                      | Rejected _ => {[ "from" := Some msg_search_failed ]}
                      end;
            pending := pending st;
            searches := searches st ++ [searchData fd] |}
    else {| formData := fd; errors := newErrors c fd;
            pending := pending st; searches := searches st |}.
Proof.
  intros fd. unfold accepted, handleSubmit, validateForm, callOnSearch,
    setErrors, await, Eff.exec, Eff.tryCatch, Eff.bind, Eff.gets,
    Eff.modify, Eff.ret, Eff.throw.
  cbn beta iota. fold fd.
  repeat case_bool_decide; try contradiction; cbn.
  - destruct (onSearch p (searchData fd)); reflexivity.
  - reflexivity.
Qed.

Lemma rejected_no_search (st : State) :
  newErrors c (formData st) <> ∅ ->
  Eff.exec (handleSubmit p c) st
  = {| formData := formData st; errors := newErrors c (formData st);
       pending := pending st; searches := searches st |}.
Proof.
  intros Hne. rewrite handleSubmit_exec. unfold accepted.
  rewrite bool_decide_eq_false_2; [reflexivity|].
  intros Hsz. apply Hne. apply map_size_empty_inv. exact Hsz.
Qed.

Lemma lookup_non_empty (e : Errors) (k : string) (v : option string) :
  e !! k = Some v -> e <> ∅.
Proof. intros H ->. rewrite lookup_empty in H. discriminate. Qed.

(** The entries of [newErrors], field by field. *)
Lemma newErrors_from (fd : SearchFormData) :
  newErrors c fd !! "from"
  = if JS.truthy (JS.trim (from fd)) then None
    else Some (Some msg_from_required).
Proof.
  unfold newErrors.
  destruct (JS.truthy (JS.trim (from fd))), (JS.truthy (JS.trim (to fd))),
    (String.eqb (normalizeLocation (from fd)) (normalizeLocation (to fd))),
    (JS.truthy (departureDate fd)),
    (JS.dateLt (JS.dateOfString (departureDate fd))
       (JS.startOfLocalDay (now c) (tzOffset c)));
    cbn [negb];
    repeat (rewrite lookup_insert_ne by discriminate);
    rewrite ?lookup_insert_eq, ?lookup_empty; reflexivity.
Qed.

Lemma newErrors_to (fd : SearchFormData) :
  newErrors c fd !! "to"
  = if String.eqb (normalizeLocation (from fd)) (normalizeLocation (to fd))
    then Some (Some msg_same_location)
    else if JS.truthy (JS.trim (to fd)) then None
    else Some (Some msg_to_required).
Proof.
  unfold newErrors.
  destruct (JS.truthy (JS.trim (from fd))), (JS.truthy (JS.trim (to fd))),
    (String.eqb (normalizeLocation (from fd)) (normalizeLocation (to fd))),
    (JS.truthy (departureDate fd)),
    (JS.dateLt (JS.dateOfString (departureDate fd))
       (JS.startOfLocalDay (now c) (tzOffset c)));
    cbn [negb];
    repeat (rewrite lookup_insert_ne by discriminate);
    rewrite ?lookup_insert_eq;
    repeat (rewrite lookup_insert_ne by discriminate);
    rewrite ?lookup_insert_eq, ?lookup_empty; reflexivity.
Qed.

Lemma newErrors_departureDate (fd : SearchFormData) :
  newErrors c fd !! "departureDate"
  = if JS.truthy (departureDate fd)
       && JS.dateLt (JS.dateOfString (departureDate fd))
            (JS.startOfLocalDay (now c) (tzOffset c))
    then Some (Some msg_past_date)
    else None.
Proof.
  unfold newErrors.
  destruct (JS.truthy (JS.trim (from fd))), (JS.truthy (JS.trim (to fd))),
    (String.eqb (normalizeLocation (from fd)) (normalizeLocation (to fd))),
    (JS.truthy (departureDate fd)),
    (JS.dateLt (JS.dateOfString (departureDate fd))
       (JS.startOfLocalDay (now c) (tzOffset c)));
    cbn [negb andb];
    rewrite ?lookup_insert_eq;
    repeat (rewrite lookup_insert_ne by discriminate);
    rewrite ?lookup_empty; reflexivity.
Qed.

(** The part of C2 that the code has: a blank [from] is reported on
    [from], a blank field of the two stops the submit before
    [onSearch], and a blank [to] is reported as required when the two
    locations do not normalize to the same string. *)
Lemma blank_from_reported (st : State) :
  JS.trim (from (formData st)) = "" ->
  errors (Eff.exec (handleSubmit p c) st) !! "from"
  = Some (Some msg_from_required)
  /\ searches (Eff.exec (handleSubmit p c) st) = searches st.
Proof.
  intros Hblank.
  assert (Hl : newErrors c (formData st) !! "from"
               = Some (Some msg_from_required)).
  { rewrite newErrors_from, Hblank. reflexivity. }
  rewrite rejected_no_search by (eapply lookup_non_empty; exact Hl).
  cbn. split; [exact Hl | reflexivity].
Qed.

Lemma blank_to_stops_submit (st : State) :
  JS.trim (to (formData st)) = "" ->
  searches (Eff.exec (handleSubmit p c) st) = searches st
  /\ (normalizeLocation (from (formData st))
      <> normalizeLocation (to (formData st)) ->
      errors (Eff.exec (handleSubmit p c) st) !! "to"
      = Some (Some msg_to_required)).
Proof.
  intros Hblank.
  assert (Hl : exists m, newErrors c (formData st) !! "to" = Some m).
  { rewrite newErrors_to, Hblank. cbn.
    destruct (String.eqb _ _); eauto. }
  destruct Hl as [m Hl].
  rewrite rejected_no_search by (eapply lookup_non_empty; exact Hl).
  cbn. split; [reflexivity|].
  intros Hne. rewrite newErrors_to, Hblank.
  apply String.eqb_neq in Hne. rewrite Hne. reflexivity.
Qed.

(** C3. When [from] and [to] normalize to the same string, a submit
    leaves the message of the destination mismatch on the field [to]
    and [onSearch] is not called. *)
Theorem same_location_rejected (st : State) :
  normalizeLocation (from (formData st))
  = normalizeLocation (to (formData st)) ->
  let st' := Eff.exec (handleSubmit p c) st in
  errors st' !! "to" = Some (Some msg_same_location)
  /\ searches st' = searches st.
Proof.
  intros Hsame st'.
  assert (Hl : newErrors c (formData st) !! "to"
               = Some (Some msg_same_location)).
  { rewrite newErrors_to. apply String.eqb_eq in Hsame. rewrite Hsame.
    reflexivity. }
  subst st'.
  rewrite rejected_no_search by (eapply lookup_non_empty; exact Hl).
  cbn. split; [exact Hl | reflexivity].
Qed.

End Submit.

Example normalizeLocation_mumbai :
  SearchForm.normalizeLocation "Mumbai" = "mumbai"
  /\ SearchForm.normalizeLocation "mumbai," = "mumbai"
  /\ SearchForm.normalizeLocation "Mumbai." = "mumbai"
  /\ SearchForm.normalizeLocation " New Delhi, " = "new delhi".
Proof. repeat split; reflexivity. Qed.

Lemma same_location_rejected_witness :
  let st := formOf {| SearchForm.from := "Mumbai"; SearchForm.to := "mumbai,";
                      SearchForm.departureDate := "";
                      SearchForm.maxPrice := 0 |} in
  let st' := Eff.exec (SearchForm.handleSubmit quietProps noonIST) st in
  SearchForm.errors st' !! "to" = Some (Some SearchForm.msg_same_location)
  /\ SearchForm.searches st' = [].
Proof.
  intros st.
  exact (same_location_rejected quietProps noonIST st eq_refl).
Defined.

(** C2 at the form whose two locations are a single space each. The
    submit reports [from] as required and calls [onSearch] zero times,
    but the message left on [to] is the one of the destination mismatch:
    the comparison of the normalized locations, which comes after the
    test of the blank destination, finds two empty strings equal and
    writes over the entry. *)
Theorem blank_destination_message (p : SearchForm.Props)
    (c : SearchForm.Clock) :
  let st := formOf {| SearchForm.from := " "; SearchForm.to := " ";
                      SearchForm.departureDate := "";
                      SearchForm.maxPrice := 0 |} in
  let st' := Eff.exec (SearchForm.handleSubmit p c) st in
  JS.trim (SearchForm.to (SearchForm.formData st)) = ""
  /\ SearchForm.errors st' !! "from"
     = Some (Some SearchForm.msg_from_required)
  /\ SearchForm.errors st' !! "to"
     = Some (Some SearchForm.msg_same_location)
  /\ SearchForm.errors st' !! "to" <> Some (Some SearchForm.msg_to_required)
  /\ SearchForm.searches st' = [].
Proof.
  intros st st'.
  destruct (blank_from_reported p c st eq_refl) as [Hfrom Hnone].
  assert (Hl : SearchForm.newErrors c (SearchForm.formData st) !! "to"
               = Some (Some SearchForm.msg_same_location)).
  { rewrite newErrors_to. reflexivity. }
  assert (Hto : SearchForm.errors st' !! "to"
                = Some (Some SearchForm.msg_same_location)).
  { subst st'.
    rewrite rejected_no_search by (eapply lookup_non_empty; exact Hl).
    exact Hl. }
  fold st' in Hfrom, Hnone.
  repeat split; try assumption.
  rewrite Hto. discriminate.
Qed.

(** ** The departure date *)

Section DepartureDate.

Import SearchForm.

Variable p : Props.
Variable c : Clock.

Lemma parseIsoDate_nonempty (s : string) ymd :
  JS.parseIsoDate s = Some ymd -> JS.truthy s = true.
Proof. destruct s; [discriminate | reflexivity]. Qed.

Lemma before_today_lt (day : Z) :
  tzOffset c < JS.msPerDay ->
  day < JS.localDay (now c) (tzOffset c) ->
  (day * JS.msPerDay <? JS.startOfLocalDay (now c) (tzOffset c)) = true.
Proof.
  unfold JS.startOfLocalDay. generalize (JS.localDay (now c) (tzOffset c)).
  unfold JS.msPerDay. intros today Hoff Hday. lia.
Qed.

(** C8. With an empty [departureDate] a submit leaves no entry for
    that field, whatever the clock says. With the date of a calendar
    day before the current local day, it leaves the message of the past
    date on [departureDate] and does not call [onSearch]. The local
    zone is less than a day ahead of UTC. *)
Theorem past_date_rejected (st : State) :
  let st' := Eff.exec (handleSubmit p c) st in
  (departureDate (formData st) = "" ->
   errors st' !! "departureDate" = None)
  /\ (forall y m d : Z,
       tzOffset c < JS.msPerDay ->
       JS.parseIsoDate (departureDate (formData st)) = Some (y, m, d) ->
       JS.daysFromCivil y m d < JS.localDay (now c) (tzOffset c) ->
       errors st' !! "departureDate" = Some (Some msg_past_date)
       /\ searches st' = searches st).
Proof.
  intros st'. split.
  - intros Hempty. subst st'. rewrite handleSubmit_exec.
    assert (Hl : newErrors c (formData st) !! "departureDate" = None).
    { rewrite newErrors_departureDate, Hempty. reflexivity. }
    destruct (accepted c (formData st)); cbn; [|exact Hl].
    destruct (onSearch p (searchData (formData st))); [exact Hl|].
    apply lookup_singleton_ne. discriminate.
  - intros y m d Hoff Hparse Hday.
    assert (Hl : newErrors c (formData st) !! "departureDate"
                 = Some (Some msg_past_date)).
    { rewrite newErrors_departureDate.
      rewrite (parseIsoDate_nonempty _ _ Hparse).
      unfold JS.dateOfString. rewrite Hparse. cbn [andb JS.dateLt].
      rewrite (before_today_lt _ Hoff Hday). reflexivity. }
    subst st'.
    rewrite rejected_no_search by (eapply lookup_non_empty; exact Hl).
    cbn. split; [exact Hl | reflexivity].
Qed.

End DepartureDate.

Lemma past_date_rejected_witness :
  let st := formOf {| SearchForm.from := "Mumbai"; SearchForm.to := "Pune";
                      SearchForm.departureDate := "2024-03-09";
                      SearchForm.maxPrice := 0 |} in
  let st' := Eff.exec (SearchForm.handleSubmit quietProps noonIST) st in
  JS.localDay (SearchForm.now noonIST) (SearchForm.tzOffset noonIST)
  = JS.daysFromCivil 2024 3 10
  /\ (SearchForm.errors st' !! "departureDate"
      = Some (Some SearchForm.msg_past_date)
      /\ SearchForm.searches st' = [])
  /\ SearchForm.errors
       (Eff.exec (SearchForm.handleSubmit quietProps noonIST)
          (formOf SearchForm.emptyForm)) !! "departureDate" = None.
Proof.
  intros st. split; [reflexivity|]. split.
  - apply (proj2 (past_date_rejected quietProps noonIST st) 2024 3 9);
      [reflexivity | reflexivity | reflexivity].
  - exact (proj1 (past_date_rejected quietProps noonIST
                    (formOf SearchForm.emptyForm)) eq_refl).
Defined.

Example today_and_tomorrow_accepted :
  SearchForm.accepted noonIST
    {| SearchForm.from := "Mumbai"; SearchForm.to := "Pune";
       SearchForm.departureDate := "2024-03-10"; SearchForm.maxPrice := 0 |}
  = true
  /\ SearchForm.accepted noonIST
       {| SearchForm.from := "Mumbai"; SearchForm.to := "Pune";
          SearchForm.departureDate := "2024-03-11";
          SearchForm.maxPrice := 0 |}
     = true.
Proof. split; vm_compute; reflexivity. Qed.

(** ** The maximum price *)

Lemma handleChange_exec (c : SearchForm.Clock) (name : SearchForm.InputName)
    (value : string) (st : SearchForm.State) :
  Eff.exec (SearchForm.handleChange c name value) st
  = {| SearchForm.formData :=
         SearchForm.updated (SearchForm.formData st) name value;
       SearchForm.errors :=
         if SearchForm.hasError (SearchForm.errors st) name
         then <[ SearchForm.key name := None ]> (SearchForm.errors st)
         else SearchForm.errors st;
       SearchForm.pending :=
         if SearchForm.isLocation name && (2 <=? JS.len value)
         then Some (SearchForm.now c,
                    SearchForm.updated (SearchForm.formData st) name value)
         else SearchForm.pending st;
       SearchForm.searches := SearchForm.searches st |}.
Proof.
  unfold SearchForm.handleChange, SearchForm.debouncedSearch,
    SearchForm.setPending, SearchForm.setFormData, SearchForm.setErrors,
    Eff.exec, Eff.bind, Eff.gets, Eff.modify, Eff.ret.
  cbn beta iota.
  destruct (SearchForm.hasError (SearchForm.errors st) name); cbn;
    destruct (SearchForm.isLocation name && (2 <=? JS.len value));
    reflexivity.
Qed.

(** C9. A change of the [maxPrice] input, which is of type [number],
    stores an integer that is not negative: the integer [parseInt]
    reads, or zero if that is below zero, and zero when the input is
    empty or [parseInt] reads no number. A submit that passes the
    validation calls [onSearch] with 10000 as [maxPrice] when the stored
    value is zero, and with the stored value otherwise. *)
Theorem maxPrice_handling :
  SearchForm.inputType SearchForm.name_maxPrice = SearchForm.number
  /\ (forall (c : SearchForm.Clock) (value : string) (st : SearchForm.State),
       let stored :=
         SearchForm.maxPrice
           (SearchForm.formData
              (Eff.exec
                 (SearchForm.handleChange c SearchForm.name_maxPrice value)
                 st)) in
       0 <= stored
       /\ stored = match JS.parseInt value with
                   | Some n => Z.max 0 n
                   | None => 0
                   end
       /\ (value = "" -> stored = 0))
  /\ (forall (p : SearchForm.Props) (c : SearchForm.Clock)
        (st : SearchForm.State),
       SearchForm.accepted c (SearchForm.formData st) = true ->
       let stored := SearchForm.maxPrice (SearchForm.formData st) in
       exists d,
         SearchForm.searches (Eff.exec (SearchForm.handleSubmit p c) st)
         = SearchForm.searches st ++ [d]
         /\ SearchForm.maxPrice d = (if stored =? 0 then 10000 else stored)).
Proof.
  split; [reflexivity|]. split.
  - intros c value st stored. subst stored. rewrite handleChange_exec.
    cbn. unfold SearchForm.numberValue.
    destruct (String.eqb_spec value "") as [->|Hne].
    + cbn. repeat split; lia.
    + unfold JS.orZero. destruct (JS.parseInt value) as [n|]; cbn;
        repeat split; try lia; intros; congruence.
  - intros p c st Hok stored. rewrite handleSubmit_exec, Hok.
    exists (SearchForm.searchData (SearchForm.formData st)).
    split; reflexivity.
Qed.

Lemma maxPrice_handling_witness :
  let st := formOf {| SearchForm.from := "Mumbai"; SearchForm.to := "Pune";
                      SearchForm.departureDate := "";
                      SearchForm.maxPrice := 0 |} in
  SearchForm.accepted noonIST (SearchForm.formData st) = true
  /\ exists d,
       SearchForm.searches
         (Eff.exec (SearchForm.handleSubmit quietProps noonIST) st)
       = SearchForm.searches st ++ [d]
       /\ SearchForm.maxPrice d = 10000.
Proof.
  intros st. split; [vm_compute; reflexivity|].
  exact (proj2 (proj2 maxPrice_handling) quietProps noonIST st eq_refl).
Defined.

Example maxPrice_inputs :
  SearchForm.numberValue "" = 0 /\ SearchForm.numberValue "-40" = 0
  /\ SearchForm.numberValue "abc" = 0 /\ SearchForm.numberValue "450" = 450
  /\ SearchForm.numberValue "12.75" = 12 /\ SearchForm.numberValue "1e3" = 1.
Proof. repeat split; reflexivity. Qed.

(** ** The debounced live search *)

Section Debounce.

Import SearchForm.

Variable p : Props.
Variable tz : Z.

Lemma fireTimer_exec (st : State) :
  Eff.exec (fireTimer p) st
  = match pending st with
    | Some (_, lastArgs) =>
        {| formData := formData st; errors := errors st; pending := None;
           searches := searches st ++ [lastArgs] |}
    | None => st
    end.
Proof.
  unfold fireTimer, callOnSearch, setPending, await, Eff.exec, Eff.bind,
    Eff.gets, Eff.modify, Eff.ret, Eff.throw.
  cbn beta iota. destruct (pending st) as [[t a]|]; [|reflexivity].
  cbn. destruct (onSearch p a); reflexivity.
Qed.

Lemma fireTimer_formData (st : State) :
  formData (Eff.exec (fireTimer p) st) = formData st.
Proof.
  rewrite fireTimer_exec. destruct (pending st) as [[t a]|]; reflexivity.
Qed.

End Debounce.

Section AcrossRenders.

Import SearchForm.

Variable tz : Z.

Lemma callOnSearch_exec (p : Props) (d : SearchFormData) (f : State) :
  Eff.exec (callOnSearch p d) f
  = {| formData := formData f; errors := errors f; pending := pending f;
       searches := searches f ++ [d] |}.
Proof.
  unfold callOnSearch, await, Eff.exec, Eff.bind, Eff.modify, Eff.ret,
    Eff.throw.
  cbn. destruct (onSearch p d); reflexivity.
Qed.

Lemma fireOrphans_formData (t : Z) (os : list Mounted.Orphan) :
  forall f : State,
    formData (Mounted.fireOrphans t os f).2 = formData f.
Proof.
  induction os as [|o rest IH]; intros f; [reflexivity|].
  cbn [Mounted.fireOrphans].
  destruct (Mounted.lastCall o + wait <=? t).
  - rewrite IH, callOnSearch_exec. reflexivity.
  - specialize (IH f). destruct (Mounted.fireOrphans t rest f) as [os' f'].
    exact IH.
Qed.

Lemma advance_formData (t : Z) (st : Mounted.State) :
  formData (Mounted.form (Mounted.advance tz t st))
  = formData (Mounted.form st).
Proof.
  unfold Mounted.advance.
  pose proof (fireOrphans_formData t (Mounted.orphans st) (Mounted.form st))
    as Hf.
  destruct (Mounted.fireOrphans t (Mounted.orphans st) (Mounted.form st))
    as [os f1].
  cbn in Hf |- *.
  destruct (timerDue _ f1); [rewrite fireTimer_formData|]; exact Hf.
Qed.

(** With no orphan, time passing does what the timer of the one
    debounced function does. *)
Lemma advance_alone (t : Z) (st : Mounted.State) :
  Mounted.orphans st = [] ->
  Mounted.advance tz t st
  = {| Mounted.form :=
         if timerDue {| now := t; tzOffset := tz |} (Mounted.form st)
         then Eff.exec (fireTimer (Mounted.props st)) (Mounted.form st)
         else Mounted.form st;
       Mounted.props := Mounted.props st; Mounted.orphans := [] |}.
Proof. intros Ho. unfold Mounted.advance. rewrite Ho. reflexivity. Qed.

Lemma advance_early (t t0 : Z) (d : SearchFormData) (st : Mounted.State) :
  Mounted.orphans st = [] ->
  pending (Mounted.form st) = Some (t0, d) ->
  t < t0 + wait ->
  Mounted.advance tz t st = st.
Proof.
  intros Ho Hp Ht. rewrite advance_alone by exact Ho.
  unfold timerDue. rewrite Hp. cbn [now].
  replace (t0 + wait <=? t) with false by lia.
  destruct st; cbn in *; subst; reflexivity.
Qed.

Lemma advance_due (t t0 : Z) (d : SearchFormData) (st : Mounted.State) :
  Mounted.orphans st = [] ->
  pending (Mounted.form st) = Some (t0, d) ->
  t0 + wait <= t ->
  searches (Mounted.form (Mounted.advance tz t st))
  = searches (Mounted.form st) ++ [d].
Proof.
  intros Ho Hp Ht. rewrite advance_alone by exact Ho.
  unfold timerDue. rewrite Hp. cbn [now Mounted.form].
  replace (t0 + wait <=? t) with true by lia.
  rewrite fireTimer_exec, Hp. reflexivity.
Qed.

(** One more event of a calm run: nothing is called, no debounced
    function is let go of, and the pending call is the one of the last
    edit, with the form data of now. *)
Lemma step_calm (st : Mounted.State) (t0 prev : Z)
    (te : Z * Mounted.Event) (rest : list (Z * Mounted.Event)) :
  Mounted.orphans st = [] ->
  pending (Mounted.form st) = Some (t0, formData (Mounted.form st)) ->
  calm t0 prev (te :: rest) ->
  let st' := Mounted.step tz st te in
  Mounted.orphans st' = []
  /\ searches (Mounted.form st') = searches (Mounted.form st)
  /\ pending (Mounted.form st')
     = Some (lastEditTime t0 [te], formData (Mounted.form st'))
  /\ exists prev', calm (lastEditTime t0 [te]) prev' rest.
Proof.
  intros Ho Hp Hcalm. destruct te as [t [ev|change loading]];
    cbn [calm] in Hcalm.
  - destruct Hcalm as (Ht & Hlive & Hrest).
    unfold Mounted.step. cbn [fst snd].
    rewrite (advance_early t t0 _ st Ho Hp) by lia.
    destruct ev as [name value| |]; try contradiction.
    destruct Hlive as [Hloc Hlen]. cbn [handle].
    rewrite handleChange_exec. cbn.
    rewrite Hloc. replace (2 <=? JS.len value) with true by lia.
    repeat split; [exact Ho|]. exists t. exact Hrest.
  - destruct Hcalm as (Ht & -> & Hrest).
    unfold Mounted.step. cbn [fst snd].
    rewrite (advance_early t t0 _ st Ho Hp) by lia.
    cbn. repeat split; [exact Ho | exact Hp |]. exists t. exact Hrest.
Qed.

Lemma lastEditTime_cons (t0 : Z) (te : Z * Mounted.Event)
    (rest : list (Z * Mounted.Event)) :
  lastEditTime t0 (te :: rest) = lastEditTime (lastEditTime t0 [te]) rest.
Proof. destruct te as [t [ev|change loading]]; reflexivity. Qed.

Lemma run_calm (evs : list (Z * Mounted.Event)) :
  forall (st : Mounted.State) (t0 prev : Z),
    Mounted.orphans st = [] ->
    pending (Mounted.form st) = Some (t0, formData (Mounted.form st)) ->
    calm t0 prev evs ->
    let st' := Mounted.run tz evs st in
    Mounted.orphans st' = []
    /\ searches (Mounted.form st') = searches (Mounted.form st)
    /\ pending (Mounted.form st')
       = Some (lastEditTime t0 evs, formData (Mounted.form st')).
Proof.
  induction evs as [|te rest IH]; intros st t0 prev Ho Hp Hcalm.
  - cbn. repeat split; assumption.
  - destruct (step_calm st t0 prev te rest Ho Hp Hcalm)
      as (Ho' & Hs' & Hp' & prev' & Hrest).
    destruct (IH (Mounted.step tz st te) _ prev' Ho' Hp' Hrest)
      as (Ho2 & Hs2 & Hp2).
    change (Mounted.run tz (te :: rest) st)
      with (Mounted.run tz rest (Mounted.step tz st te)).
    cbn zeta. rewrite lastEditTime_cons.
    repeat split; [exact Ho2 | congruence | exact Hp2].
Qed.

(** With form events only and no orphan, the run across renders is the
    run of the form under its one [onSearch] function. *)
Lemma run_forms (evs : list (Z * Event)) : forall st : Mounted.State,
  Mounted.orphans st = [] ->
  Mounted.run tz (map (fun te => (te.1, Mounted.Form te.2)) evs) st
  = {| Mounted.form := run (Mounted.props st) tz evs (Mounted.form st);
       Mounted.props := Mounted.props st; Mounted.orphans := [] |}.
Proof.
  induction evs as [|[t ev] rest IH]; intros st Ho.
  - destruct st; cbn in *; subst; reflexivity.
  - cbn [map Mounted.run run fold_left].
    change (fold_left (Mounted.step tz) ?l ?a) with (Mounted.run tz l a).
    change (fold_left (step ?q tz) ?l ?a) with (run q tz l a).
    assert (Hstep : Mounted.step tz st (t, Mounted.Form ev)
                    = {| Mounted.form := step (Mounted.props st) tz
                                           (Mounted.form st) (t, ev);
                         Mounted.props := Mounted.props st;
                         Mounted.orphans := [] |}).
    { unfold Mounted.step, step. cbn [fst snd].
      rewrite advance_alone by exact Ho. reflexivity. }
    cbn [fst snd]. rewrite Hstep, IH by reflexivity. reflexivity.
Qed.

(** C4, amended. A change of [from] or [to] to a value of length two
    or more arms the debounced function with the form data as that
    change leaves them, and calls nothing by itself; any other change
    leaves the debounced function as it was. Over a run of such edits,
    each less than 500 ms after the one before, during which the
    parent keeps passing the same [onSearch] function, [onSearch] is
    not called before 500 ms have passed since the last edit, and from
    then on it has been called once, with the form data left by the
    last edit. *)
Theorem live_search_fires_once :
  (forall (c : Clock) (name : InputName) (value : string) (st : State),
     let st' := Eff.exec (handleChange c name value) st in
     searches st' = searches st
     /\ pending st'
        = if isLocation name && (2 <=? JS.len value)
          then Some (now c, updated (formData st) name value)
          else pending st)
  /\ (forall (st : Mounted.State) (t1 : Z) (e1 : Event)
        (rest : list (Z * Mounted.Event)),
       pending (Mounted.form st) = None ->
       Mounted.orphans st = [] ->
       liveEdit e1 ->
       calm t1 t1 rest ->
       let st' := Mounted.run tz ((t1, Mounted.Form e1) :: rest) st in
       let last := lastEditTime t1 rest in
       searches (Mounted.form st') = searches (Mounted.form st)
       /\ (forall t, t < last + 500 ->
             searches (Mounted.form (Mounted.advance tz t st'))
             = searches (Mounted.form st))
       /\ (forall t, last + 500 <= t ->
             searches (Mounted.form (Mounted.advance tz t st'))
             = searches (Mounted.form st) ++ [formData (Mounted.form st')]))
  /\ (forall (evs : list (Z * Mounted.Event)) (t : Z) (name : InputName)
        (value : string) (st : Mounted.State),
       formData
         (Mounted.form
            (Mounted.run tz (evs ++ [(t, Mounted.Form (Change name value))])
               st))
       = updated (formData (Mounted.form (Mounted.run tz evs st)))
           name value).
Proof.
  split; [|split].
  - intros c name value st st'. subst st'. rewrite handleChange_exec.
    split; reflexivity.
  - intros st t1 e1 rest Hnone Ho Hlive Hcalm st' last.
    set (st1 := Mounted.step tz st (t1, Mounted.Form e1)).
    assert (H1 : Mounted.orphans st1 = []
                 /\ searches (Mounted.form st1) = searches (Mounted.form st)
                 /\ pending (Mounted.form st1)
                    = Some (t1, formData (Mounted.form st1))).
    { subst st1. unfold Mounted.step. cbn [fst snd].
      rewrite advance_alone by exact Ho.
      unfold timerDue. rewrite Hnone. cbn [Mounted.form Mounted.props
                                             Mounted.orphans].
      destruct e1 as [name value| |]; try contradiction.
      destruct Hlive as [Hloc Hlen]. cbn [handle].
      rewrite handleChange_exec. cbn.
      rewrite Hloc. replace (2 <=? JS.len value) with true by lia.
      repeat split. }
    destruct H1 as (Ho1 & Hs1 & Hp1).
    destruct (run_calm rest st1 t1 t1 Ho1 Hp1 Hcalm) as (Ho' & Hs' & Hp').
    change (Mounted.run tz rest st1) with st' in Ho', Hs', Hp'.
    fold last in Hp'.
    split; [congruence|]. split.
    + intros t Ht.
      rewrite (advance_early t last _ st' Ho' Hp') by (unfold wait; lia).
      congruence.
    + intros t Ht.
      rewrite (advance_due t last _ st' Ho' Hp') by (unfold wait; lia).
      congruence.
  - intros evs t name value st. unfold Mounted.run.
    rewrite fold_left_app. cbn [fold_left]. unfold Mounted.step.
    cbn [fst snd Mounted.form handle].
    rewrite handleChange_exec. cbn [formData].
    rewrite advance_formData. reflexivity.
Qed.

End AcrossRenders.

Lemma live_search_fires_once_witness :
  let st' := Mounted.run 19800000 typing_De_Del (Mounted.mount quietProps) in
  SearchForm.searches (Mounted.form st') = []
  /\ (forall t, t < 1300 + 500 ->
        SearchForm.searches
          (Mounted.form (Mounted.advance 19800000 t st')) = [])
  /\ (forall t, 1300 + 500 <= t ->
        SearchForm.searches
          (Mounted.form (Mounted.advance 19800000 t st')) = [form_Del]).
Proof.
  apply (proj1 (proj2 (live_search_fires_once 19800000))
           (Mounted.mount quietProps) 1000
           (SearchForm.Change SearchForm.name_to "De")
           [(1100, Mounted.Render None true);
            (1300, Mounted.Form (SearchForm.Change SearchForm.name_to
                                   "Del"))]).
  - reflexivity.
  - reflexivity.
  - split; [reflexivity | cbv; discriminate].
  - cbn. unfold SearchForm.wait.
    repeat split; try lia; cbv; discriminate.
Defined.

(** C4, as the specification states it, fails: "De" and "Del" are
    typed 300 ms apart, and the parent renders in between with an
    [onSearch] function of its own making. [useCallback] then builds a
    second debounced function and the timer of the first is not
    cancelled: [onSearch] is called twice, for "De" and for "Del". *)
Lemma new_onSearch_fires_twice :
  SearchForm.searches
    (Mounted.form
       (Mounted.advance 19800000 1800
          (Mounted.run 19800000 typing_De_Del_rerendered
             (Mounted.mount quietProps))))
  = [form_De; form_Del]
  /\ SearchForm.searches
       (Mounted.form
          (Mounted.advance 19800000 1500
             (Mounted.run 19800000 typing_De_Del_rerendered
                (Mounted.mount quietProps))))
     = [form_De].
Proof. split; reflexivity. Qed.

Example typing_slowly_fires_twice :
  SearchForm.searches
    (SearchForm.settle quietProps
       (SearchForm.run quietProps 0
          [(1000, SearchForm.Change SearchForm.name_to "De");
           (1500, SearchForm.Change SearchForm.name_to "Del")]
          SearchForm.initial))
  = [ {| SearchForm.from := ""; SearchForm.to := "De";
         SearchForm.departureDate := ""; SearchForm.maxPrice := 0 |};
      {| SearchForm.from := ""; SearchForm.to := "Del";
         SearchForm.departureDate := ""; SearchForm.maxPrice := 0 |} ].
Proof. reflexivity. Qed.

Example short_or_other_edits_fire_nothing :
  SearchForm.searches
    (SearchForm.settle quietProps
       (SearchForm.run quietProps 0
          [(1000, SearchForm.Change SearchForm.name_to "D");
           (1100, SearchForm.Change SearchForm.name_maxPrice "500");
           (1200, SearchForm.Change SearchForm.name_departureDate
                    "2030-01-01")]
          SearchForm.initial))
  = [].
Proof. reflexivity. Qed.

(** ** Live search and submit compared *)

(** C10. The live search hands [onSearch] the form data exactly as the
    edit left them: nothing validated, nothing trimmed, a zero
    [maxPrice] kept. So it can call [onSearch] with locations that
    normalize to the same string, which a submit refuses; and for form
    data a submit accepts, the submit sends the trimmed locations and
    10000 for a zero [maxPrice], which is another payload than the one
    of the live search. *)
Theorem live_search_is_unvalidated :
  (forall (p : SearchForm.Props) (c : SearchForm.Clock)
      (name : SearchForm.InputName) (value : string) (st : SearchForm.State),
     SearchForm.isLocation name = true ->
     2 <= JS.len value ->
     let st' := Eff.exec (SearchForm.handleChange c name value) st in
     SearchForm.formData st'
     = SearchForm.updated (SearchForm.formData st) name value
     /\ SearchForm.searches (SearchForm.settle p st')
        = SearchForm.searches st ++ [SearchForm.formData st'])
  /\ (forall (p : SearchForm.Props) (c : SearchForm.Clock)
        (st : SearchForm.State) (d : SearchForm.SearchFormData),
       SearchForm.searches (Eff.exec (SearchForm.handleSubmit p c) st)
       = SearchForm.searches st ++ [d] ->
       SearchForm.accepted c (SearchForm.formData st) = true
       /\ d = SearchForm.searchData (SearchForm.formData st))
  /\ (forall (p : SearchForm.Props) (c : SearchForm.Clock),
       let st := formOf {| SearchForm.from := " Pune "; SearchForm.to := "pun";
                           SearchForm.departureDate := "";
                           SearchForm.maxPrice := 0 |} in
       let st' :=
         Eff.exec (SearchForm.handleChange c SearchForm.name_to "pune") st in
       SearchForm.formData st' = sameCityForm
       /\ SearchForm.searches (SearchForm.settle p st') = [sameCityForm]
       /\ SearchForm.normalizeLocation (SearchForm.from sameCityForm)
          = SearchForm.normalizeLocation (SearchForm.to sameCityForm)
       /\ JS.trim (SearchForm.from sameCityForm)
          <> SearchForm.from sameCityForm
       /\ SearchForm.maxPrice sameCityForm = 0
       /\ SearchForm.searches (Eff.exec (SearchForm.handleSubmit p c) st')
          = [])
  /\ (forall (p : SearchForm.Props) (c : SearchForm.Clock),
       let st := formOf {| SearchForm.from := " Delhi"; SearchForm.to := "Pu";
                           SearchForm.departureDate := "";
                           SearchForm.maxPrice := 0 |} in
       let st' :=
         Eff.exec (SearchForm.handleChange c SearchForm.name_to "Pun") st in
       SearchForm.formData st' = paddedForm
       /\ SearchForm.searches (SearchForm.settle p st') = [paddedForm]
       /\ SearchForm.searches (Eff.exec (SearchForm.handleSubmit p c) st')
          = [ {| SearchForm.from := "Delhi"; SearchForm.to := "Pun";
                 SearchForm.departureDate := "";
                 SearchForm.maxPrice := 10000 |} ]
       /\ SearchForm.searchData paddedForm <> paddedForm).
Proof.
  split; [|split; [|split]].
  - intros p c name value st Hloc Hlen st'. subst st'.
    rewrite handleChange_exec. cbn [SearchForm.formData].
    split; [reflexivity|].
    unfold SearchForm.settle. rewrite fireTimer_exec. cbn.
    rewrite Hloc. replace (2 <=? JS.len value) with true by lia.
    reflexivity.
  - intros p c st d Hrun. rewrite handleSubmit_exec in Hrun.
    destruct (SearchForm.accepted c (SearchForm.formData st)); cbn in Hrun.
    + apply app_inv_head in Hrun. split; [reflexivity|]. congruence.
    + exfalso. rewrite <- (app_nil_r (SearchForm.searches st)) in Hrun at 1.
      apply app_inv_head in Hrun. discriminate.
  - intros p c st st'. subst st'. rewrite handleChange_exec.
    repeat split; try reflexivity.
    + unfold SearchForm.settle. rewrite fireTimer_exec. reflexivity.
    + vm_compute. discriminate.
  - intros p c st st'. subst st'. rewrite handleChange_exec.
    repeat split; try reflexivity.
    + unfold SearchForm.settle. rewrite fireTimer_exec. reflexivity.
    + rewrite handleSubmit_exec.
      replace (SearchForm.accepted c _) with true; [reflexivity|].
      symmetry. unfold SearchForm.accepted. apply bool_decide_eq_true_2.
      apply map_size_empty_iff. reflexivity.
    + vm_compute. discriminate.
Qed.

Lemma live_search_is_unvalidated_witness :
  let st' :=
    Eff.exec
      (SearchForm.handleChange noonIST SearchForm.name_from " Pune ")
      (formOf {| SearchForm.from := ""; SearchForm.to := "pune";
                 SearchForm.departureDate := ""; SearchForm.maxPrice := 0 |})
  in
  (SearchForm.formData st' = sameCityForm
   /\ SearchForm.searches (SearchForm.settle quietProps st') = [sameCityForm])
  /\ SearchForm.accepted noonIST paddedForm = true
  /\ SearchForm.searchData paddedForm
     = {| SearchForm.from := "Delhi"; SearchForm.to := "Pun";
          SearchForm.departureDate := ""; SearchForm.maxPrice := 10000 |}.
Proof.
  intros st'. split.
  - apply (proj1 live_search_is_unvalidated quietProps noonIST
             SearchForm.name_from " Pune ").
    + reflexivity.
    + cbv. discriminate.
  - apply (proj1 (proj2 live_search_is_unvalidated) quietProps noonIST
             (formOf paddedForm)
             {| SearchForm.from := "Delhi"; SearchForm.to := "Pun";
                SearchForm.departureDate := "";
                SearchForm.maxPrice := 10000 |}).
    reflexivity.
Defined.

(** * Further properties of the search form *)

Section Strings.

Lemma truthy_iff (s : string) : JS.truthy s = true <-> s <> "".
Proof. destruct s; cbn; split; intros; congruence. Qed.

Lemma truthy_false_iff (s : string) : JS.truthy s = false <-> s = "".
Proof. destruct s; cbn; split; intros; congruence. Qed.

Lemma trimStart_empty_iff (s : string) :
  JS.trimStart s = "" <-> URI.allChars JS.isWhiteSpace s = true.
Proof.
  induction s as [|c s IH]; cbn; [tauto|].
  destruct (JS.isWhiteSpace c); cbn; [exact IH|].
  split; discriminate.
Qed.

Lemma trimStart_head (s : string) (c : ascii) (r : string) :
  JS.trimStart s = String c r -> JS.isWhiteSpace c = false.
Proof.
  induction s as [|x s IH]; cbn; [discriminate|].
  destruct (JS.isWhiteSpace x) eqn:E; [exact IH|].
  intros H. injection H as -> _. exact E.
Qed.

Lemma allChars_revOnto (q : ascii -> bool) (s : string) : forall acc,
  URI.allChars q (JS.revOnto s acc)
  = URI.allChars q s && URI.allChars q acc.
Proof.
  induction s as [|c s IH]; intros acc; cbn; [reflexivity|].
  rewrite IH. cbn. destruct (q c), (URI.allChars q s); reflexivity.
Qed.

Lemma allChars_reverse (q : ascii -> bool) (s : string) :
  URI.allChars q (JS.reverse s) = URI.allChars q s.
Proof. unfold JS.reverse. rewrite allChars_revOnto. cbn. apply andb_true_r. Qed.

Lemma revOnto_empty (s : string) : forall acc,
  JS.revOnto s acc = "" -> s = "" /\ acc = "".
Proof.
  induction s as [|c s IH]; intros acc H; cbn in H; [tauto|].
  apply IH in H. destruct H as [_ H]. discriminate.
Qed.

Lemma trim_empty_iff (s : string) :
  JS.trim s = "" <-> URI.allChars JS.isWhiteSpace s = true.
Proof.
  unfold JS.trim, JS.trimEnd. split.
  - intros H. apply revOnto_empty in H. destruct H as [H _].
    apply trimStart_empty_iff in H. rewrite allChars_reverse in H.
    apply trimStart_empty_iff.
    destruct (JS.trimStart s) as [|c r] eqn:E; [reflexivity|].
    apply trimStart_head in E. cbn in H. rewrite E in H. discriminate.
  - intros H. apply trimStart_empty_iff in H. rewrite H. reflexivity.
Qed.

End Strings.

Section Validation.

Import SearchForm.

Variable p : Props.
Variable c : Clock.

Lemma accepted_empty (fd : SearchFormData) :
  accepted c fd = true <-> newErrors c fd = ∅.
Proof.
  unfold accepted. rewrite bool_decide_eq_true. apply map_size_empty_iff.
Qed.

Lemma accepted_from_given (fd : SearchFormData) :
  accepted c fd = true -> JS.truthy (JS.trim (from fd)) = true.
Proof.
  intros Hacc. apply accepted_empty in Hacc.
  pose proof (newErrors_from c fd) as Hl. rewrite Hacc, lookup_empty in Hl.
  destruct (JS.truthy (JS.trim (from fd))); [reflexivity | discriminate].
Qed.

(** X1. [validateForm] accepts the form exactly when both locations
    are not blank, they do not normalize to the same string, and the
    date is empty or not before the start of the local day. *)
Theorem accepted_iff (fd : SearchFormData) :
  accepted c fd = true
  <-> JS.trim (from fd) <> "" /\ JS.trim (to fd) <> ""
      /\ normalizeLocation (from fd) <> normalizeLocation (to fd)
      /\ (departureDate fd = ""
          \/ JS.dateLt (JS.dateOfString (departureDate fd))
               (JS.startOfLocalDay (now c) (tzOffset c)) = false).
Proof.
  rewrite accepted_empty.
  rewrite <- !truthy_iff, <- truthy_false_iff, <- String.eqb_neq.
  unfold newErrors.
  destruct (JS.truthy (JS.trim (from fd))), (JS.truthy (JS.trim (to fd))),
    (String.eqb (normalizeLocation (from fd)) (normalizeLocation (to fd))),
    (JS.truthy (departureDate fd)),
    (JS.dateLt (JS.dateOfString (departureDate fd))
       (JS.startOfLocalDay (now c) (tzOffset c)));
    cbn [negb];
    (split;
     [ intros H; first [ exfalso; exact (insert_non_empty _ _ _ H)
                       | repeat split; auto ]
     | intros (H1 & H2 & H3 & [H4|H4]);
       first [ discriminate | reflexivity ] ]).
Qed.

(** X2. After a submit the field [from] carries the message of the
    required departure exactly when [from] is made of white space
    only, the empty string included. *)
Theorem from_required_iff_blank (st : State) :
  errors (Eff.exec (handleSubmit p c) st) !! "from"
  = Some (Some msg_from_required)
  <-> URI.allChars JS.isWhiteSpace (from (formData st)) = true.
Proof.
  rewrite <- trim_empty_iff, <- truthy_false_iff.
  rewrite handleSubmit_exec.
  destruct (accepted c (formData st)) eqn:Hacc; cbn [errors].
  - pose proof (accepted_from_given (formData st) Hacc) as Hfrom.
    rewrite Hfrom.
    destruct (onSearch p (searchData (formData st))).
    + rewrite newErrors_from, Hfrom. split; discriminate.
    + rewrite lookup_singleton_eq. split; discriminate.
  - rewrite newErrors_from.
    destruct (JS.truthy (JS.trim (from (formData st))));
      split; congruence.
Qed.

(** X3. For the date of a calendar day, read as midnight UTC: in a
    zone at or ahead of UTC the past-date message is set exactly for
    the days before the local day; in a zone behind UTC it is set for
    the local day itself as well. *)
Theorem date_error_by_zone (fd : SearchFormData) (y m d : Z) :
  JS.parseIsoDate (departureDate fd) = Some (y, m, d) ->
  let day := JS.daysFromCivil y m d in
  let today := JS.localDay (now c) (tzOffset c) in
  let flagged :=
    newErrors c fd !! "departureDate" = Some (Some msg_past_date) in
  (0 <= tzOffset c < JS.msPerDay -> (flagged <-> day < today))
  /\ (- JS.msPerDay < tzOffset c < 0 -> (flagged <-> day <= today)).
Proof.
  intros Hparse day today flagged. subst flagged.
  rewrite newErrors_departureDate.
  rewrite (parseIsoDate_nonempty _ _ Hparse).
  unfold JS.dateOfString. rewrite Hparse. cbn [andb JS.dateLt].
  fold day. unfold JS.startOfLocalDay. fold today.
  unfold JS.msPerDay.
  split; intros Hoff;
    destruct (Z.ltb_spec (day * 86400000) (today * 86400000 - tzOffset c));
    split; intros; try lia; try reflexivity; try discriminate.
Qed.

(** X4. Whatever a submit leaves in [errors] is a message that is not
    empty, on one of the fields [from], [to] and [departureDate]; the
    field [maxPrice] never gets one. *)
Theorem submit_errors_shape (st : State) (k : string) (v : option string) :
  errors (Eff.exec (handleSubmit p c) st) !! k = Some v ->
  (k = "from" \/ k = "to" \/ k = "departureDate")
  /\ exists m, v = Some m /\ m <> "".
Proof.
  rewrite handleSubmit_exec.
  assert (Hnew : newErrors c (formData st) !! k = Some v ->
                 (k = "from" \/ k = "to" \/ k = "departureDate")
                 /\ exists m, v = Some m /\ m <> "").
  { unfold newErrors.
    destruct (JS.truthy (JS.trim (from (formData st)))),
      (JS.truthy (JS.trim (to (formData st)))),
      (String.eqb (normalizeLocation (from (formData st)))
         (normalizeLocation (to (formData st)))),
      (JS.truthy (departureDate (formData st))),
      (JS.dateLt (JS.dateOfString (departureDate (formData st)))
         (JS.startOfLocalDay (now c) (tzOffset c)));
      cbn [negb]; intros H;
      repeat (apply lookup_insert_Some in H;
              destruct H as [[<- <-]|[_ H]];
              [split; [tauto | eexists; split; [reflexivity|discriminate]]|]);
      rewrite lookup_empty in H; discriminate. }
  destruct (accepted c (formData st)); cbn [errors]; [|exact Hnew].
  destruct (onSearch p (searchData (formData st))); [exact Hnew|].
  intros H. apply lookup_singleton_Some in H. destruct H as [<- <-].
  split; [tauto | eexists; split; [reflexivity|discriminate]].
Qed.

(** X5. When the form is accepted and [onSearch] throws, the call has
    been made, the form data are kept, and the only error left is the
    failure message on [from]. *)
Theorem submit_failure (st : State) (e : string) :
  accepted c (formData st) = true ->
  onSearch p (searchData (formData st)) = Rejected e ->
  Eff.exec (handleSubmit p c) st
  = {| formData := formData st;
       errors := {[ "from" := Some msg_search_failed ]};
       pending := pending st;
       searches := searches st ++ [searchData (formData st)] |}.
Proof.
  intros Hacc Hthrow. rewrite handleSubmit_exec, Hacc, Hthrow. reflexivity.
Qed.

End Validation.

Section Editing.

Import SearchForm.

Variable p : Props.
Variable tz : Z.

Lemma key_inj (a b : InputName) : key a = key b -> a = b.
Proof. destruct a, b; cbn; intros H; try reflexivity; discriminate. Qed.

(** X6. A change of an input silences the error of that input, if it
    has one, and leaves the entry of every other input as it was; with
    no error on the input the errors are untouched. *)
Theorem change_clears_own_error (c : Clock) (name : InputName)
    (value : string) (st : State) :
  let st' := Eff.exec (handleChange c name value) st in
  hasError (errors st') name = false
  /\ (forall other : InputName,
        other <> name -> errors st' !! key other = errors st !! key other)
  /\ (hasError (errors st) name = false -> errors st' = errors st).
Proof.
  intros st'. subst st'. rewrite handleChange_exec. cbn [errors].
  destruct (hasError (errors st) name) eqn:Herr.
  - repeat split.
    + unfold hasError. rewrite lookup_insert_eq. reflexivity.
    + intros other Hne. apply lookup_insert_ne.
      intros Hk. apply Hne. symmetry. apply key_inj. exact Hk.
    + discriminate.
  - repeat split. exact Herr.
Qed.

(** X7. Only a location edit arms the live search. An edit of the date
    or of the price, or a location shortened below two code units,
    that follows a location edit leaves the pending call as it is: the
    call that fires carries the form data from before that later edit,
    not the ones on screen. *)
Theorem live_search_snapshot_is_stale (c c' : Clock) (name name' : InputName)
    (value value' : string) (st : State) :
  isLocation name = true ->
  2 <= JS.len value ->
  isLocation name' = false \/ JS.len value' < 2 ->
  let st1 := Eff.exec (handleChange c name value) st in
  let st2 := Eff.exec (handleChange c' name' value') st1 in
  formData st2 = updated (formData st1) name' value'
  /\ searches (settle p st2) = searches st ++ [formData st1].
Proof.
  intros Hloc Hlen Hother st1 st2. subst st2.
  rewrite handleChange_exec. cbn [formData].
  split; [reflexivity|].
  unfold settle. rewrite fireTimer_exec. cbn [pending].
  replace (isLocation name' && (2 <=? JS.len value')) with false.
  2:{ destruct Hother as [H|H]; [rewrite H; reflexivity|].
      replace (2 <=? JS.len value') with false by lia.
      symmetry. apply andb_false_r. }
  subst st1. rewrite handleChange_exec. cbn.
  rewrite Hloc. replace (2 <=? JS.len value) with true by lia.
  reflexivity.
Qed.

(** X8. A reset empties the form and the errors but does not cancel a
    pending live search: when its timer expires, [onSearch] is still
    called with the form data from before the reset. *)
Theorem reset_keeps_pending_search (st : State) (t : Z)
    (d : SearchFormData) :
  pending st = Some (t, d) ->
  let st' := Eff.exec handleReset st in
  formData st' = emptyForm /\ errors st' = ∅
  /\ searches st' = searches st
  /\ searches (settle p st') = searches st ++ [d].
Proof.
  intros Hpend st'. subst st'.
  unfold settle. rewrite fireTimer_exec.
  unfold handleReset, setFormData, setErrors, Eff.exec, Eff.bind,
    Eff.modify. cbn. rewrite Hpend. repeat split; reflexivity.
Qed.

(** X9. A submit does not cancel a pending live search either, and
    leaves the form data as typed: after an accepted submit [onSearch]
    has been called with the trimmed payload, and the timer then calls
    it a second time with the pending form data. *)
Theorem submit_keeps_pending_search (c : Clock) (st : State) (t : Z)
    (d : SearchFormData) :
  pending st = Some (t, d) ->
  accepted c (formData st) = true ->
  let st' := Eff.exec (handleSubmit p c) st in
  formData st' = formData st
  /\ searches st' = searches st ++ [searchData (formData st)]
  /\ searches (settle p st')
     = searches st ++ [searchData (formData st); d].
Proof.
  intros Hpend Hacc st'. subst st'.
  unfold settle. rewrite fireTimer_exec, handleSubmit_exec, Hacc.
  cbn. rewrite Hpend. cbn. rewrite <- app_assoc.
  repeat split; reflexivity.
Qed.

(** X10. Whatever is typed into the price input, the price a submit
    sends is at least 1: a negative, empty or unreadable input was
    stored as zero, and zero is sent as 10000. *)
Theorem submitted_maxPrice_positive (c c' : Clock) (value : string)
    (st : State) (d : SearchFormData) :
  let st1 := Eff.exec (handleChange c name_maxPrice value) st in
  searches (Eff.exec (handleSubmit p c') st1) = searches st1 ++ [d] ->
  1 <= maxPrice d.
Proof.
  intros st1 Hrun. rewrite handleSubmit_exec in Hrun.
  destruct (accepted c' (formData st1)); cbn [searches] in Hrun.
  - apply app_inv_head in Hrun. injection Hrun as <-.
    subst st1. rewrite handleChange_exec. cbn.
    unfold numberValue. destruct (String.eqb value ""); cbn; [lia|].
    destruct (Z.eqb_spec (Z.max 0 (JS.orZero (JS.parseInt value))) 0); lia.
  - exfalso. rewrite <- (app_nil_r (searches st1)) in Hrun at 1.
    apply app_inv_head in Hrun. discriminate.
Qed.

Lemma numberValue_nonneg (value : string) : 0 <= numberValue value.
Proof. unfold numberValue. destruct (String.eqb value ""); lia. Qed.

Lemma updated_nonneg (fd : SearchFormData) (name : InputName)
    (value : string) :
  0 <= maxPrice fd -> 0 <= maxPrice (updated fd name value).
Proof.
  intros H. destruct name; cbn; try exact H. apply numberValue_nonneg.
Qed.

Lemma fireTimer_prices (st : State) :
  pricesNonNegative st -> pricesNonNegative (Eff.exec (fireTimer p) st).
Proof.
  intros (Hfd & Hpend & Hlog). rewrite fireTimer_exec.
  destruct (pending st) as [[t a]|] eqn:E.
  2:{ repeat split; [exact Hfd | | exact Hlog].
      intros t d H. rewrite E in H. discriminate. }
  repeat split; cbn; [exact Hfd | discriminate |].
  intros d Hin. apply in_app_or in Hin. destruct Hin as [Hin|[<-|[]]].
  - apply Hlog. exact Hin.
  - apply (Hpend t a). reflexivity.
Qed.

Lemma step_prices (st : State) (te : Z * Event) :
  pricesNonNegative st -> pricesNonNegative (step p tz st te).
Proof.
  intros Hinv. unfold step.
  set (c := {| now := te.1; tzOffset := tz |}).
  set (st1 := if timerDue c st then Eff.exec (fireTimer p) st else st).
  assert (H1 : pricesNonNegative st1).
  { subst st1. destruct (timerDue c st); [apply fireTimer_prices|];
      exact Hinv. }
  destruct H1 as (Hfd & Hpend & Hlog).
  destruct (te.2) as [name value| |]; cbn [handle].
  - rewrite handleChange_exec. repeat split; cbn.
    + apply updated_nonneg. exact Hfd.
    + intros t d.
      destruct (isLocation name && (2 <=? JS.len value)).
      * intros H. injection H as _ <-. apply updated_nonneg. exact Hfd.
      * apply Hpend.
    + exact Hlog.
  - rewrite handleSubmit_exec.
    destruct (accepted c (formData st1)); repeat split; cbn;
      try assumption.
    intros d Hin. apply in_app_or in Hin. destruct Hin as [Hin|[<-|[]]].
    + apply Hlog. exact Hin.
    + cbn. destruct (maxPrice (formData st1) =? 0); lia.
  - unfold handleReset, setFormData, setErrors, Eff.exec, Eff.bind,
      Eff.modify. cbn. repeat split; cbn; [lia | exact Hpend | exact Hlog].
Qed.

(** X11. Over every run of the form from its initial state, whatever
    the events and their order, the stored [maxPrice] is never
    negative, and no call of [onSearch], be it from a submit or from
    the live search, carries a negative [maxPrice]. *)
Theorem run_prices_nonnegative (evs : list (Z * Event)) :
  let st := settle p (run p tz evs initial) in
  0 <= maxPrice (formData st)
  /\ forall d, In d (searches st) -> 0 <= maxPrice d.
Proof.
  assert (Hrun : forall st, pricesNonNegative st ->
                            pricesNonNegative (run p tz evs st)).
  { induction evs as [|te rest IH]; intros st Hinv; [exact Hinv|].
    apply IH. apply step_prices. exact Hinv. }
  assert (Hinit : pricesNonNegative initial).
  { repeat split; cbn; [lia | discriminate | tauto]. }
  destruct (fireTimer_prices _ (Hrun initial Hinit)) as (Hfd & _ & Hlog).
  split; assumption.
Qed.

End Editing.

(** * Normalized locations *)

Section Normalization.

Lemma append_empty_r (s : string) : s +:+ "" = s.
Proof.
  induction s as [|c s IH]; [reflexivity|].
  change (String c (s +:+ "") = String c s). rewrite IH. reflexivity.
Qed.

Lemma append_assoc (a b c : string) : (a +:+ b) +:+ c = a +:+ (b +:+ c).
Proof.
  induction a as [|x a IH]; [reflexivity|].
  change (String x ((a +:+ b) +:+ c) = String x (a +:+ (b +:+ c))).
  rewrite IH. reflexivity.
Qed.

Lemma revOnto_append (s : string) : forall acc,
  JS.revOnto s acc = JS.reverse s +:+ acc.
Proof.
  unfold JS.reverse. induction s as [|c s IH]; intros acc; cbn;
    [reflexivity|].
  rewrite (IH (String c acc)), (IH (String c "")), append_assoc.
  reflexivity.
Qed.

Lemma reverse_cons (c : ascii) (s : string) :
  JS.reverse (String c s) = JS.reverse s +:+ String c "".
Proof. unfold JS.reverse at 1. cbn. apply revOnto_append. Qed.

Lemma reverse_snoc (s : string) (c : ascii) :
  JS.reverse (s +:+ String c "") = String c (JS.reverse s).
Proof.
  induction s as [|x s IH]; [reflexivity|].
  change (String x s +:+ String c "") with (String x (s +:+ String c "")).
  rewrite !reverse_cons, IH. reflexivity.
Qed.

Lemma reverse_involutive (s : string) : JS.reverse (JS.reverse s) = s.
Proof.
  induction s as [|c s IH]; [reflexivity|].
  rewrite reverse_cons, reverse_snoc, IH. reflexivity.
Qed.

Lemma reverse_empty (s : string) : JS.reverse s = "" -> s = "".
Proof. intros H. apply revOnto_empty in H. tauto. Qed.

Lemma trimStart_snoc (s : string) (c : ascii) :
  JS.trimStart (s +:+ String c "")
  = match JS.trimStart s with
    | EmptyString => JS.trimStart (String c "")
    | t => t +:+ String c ""
    end.
Proof.
  induction s as [|x s IH]; [reflexivity|].
  change (String x s +:+ String c "") with (String x (s +:+ String c "")).
  cbn [JS.trimStart].
  destruct (JS.isWhiteSpace x); [exact IH | reflexivity].
Qed.

(** [trimEnd], which the code reaches through two reversals, is the
    recursion from the left. *)
Lemma trimEnd_rec (s : string) : JS.trimEnd s = trimEndRec s.
Proof.
  unfold JS.trimEnd. induction s as [|c s IH]; [reflexivity|].
  rewrite reverse_cons, trimStart_snoc. cbn [trimEndRec].
  rewrite <- IH.
  destruct (JS.trimStart (JS.reverse s)) as [|y t] eqn:E.
  - cbn. destruct (JS.isWhiteSpace c); reflexivity.
  - rewrite reverse_snoc.
    destruct (JS.reverse (String y t)) as [|z u] eqn:E2; [|reflexivity].
    apply reverse_empty in E2. discriminate.
Qed.

Lemma trimEndRec_empty_iff (s : string) :
  trimEndRec s = "" <-> URI.allChars JS.isWhiteSpace s = true.
Proof.
  induction s as [|c s IH]; cbn; [tauto|].
  destruct (trimEndRec s) as [|y t].
  - destruct (JS.isWhiteSpace c); cbn.
    + split; [intros _; apply IH; reflexivity | reflexivity].
    + split; discriminate.
  - split; [discriminate|]. intros H.
    apply andb_true_iff in H. destruct H as [_ H].
    apply IH in H. discriminate.
Qed.

(** Trimming the two ends in either order. *)
Lemma trim_commute (s : string) :
  JS.trimStart (JS.trimEnd s) = JS.trimEnd (JS.trimStart s).
Proof.
  rewrite !trimEnd_rec. induction s as [|c s IH]; [reflexivity|].
  cbn [JS.trimStart trimEndRec].
  destruct (JS.isWhiteSpace c) eqn:Ec.
  - destruct (trimEndRec s) as [|y t] eqn:E.
    + cbn. symmetry. apply trimEndRec_empty_iff.
      apply trimEndRec_empty_iff in E. apply trimStart_empty_iff in E.
      rewrite E. reflexivity.
    + cbn [JS.trimStart]. rewrite Ec. exact IH.
  - cbn [trimEndRec].
    destruct (trimEndRec s) as [|y t]; cbn [JS.trimStart]; rewrite Ec;
      reflexivity.
Qed.

Lemma trimStart_idempotent (s : string) :
  JS.trimStart (JS.trimStart s) = JS.trimStart s.
Proof.
  induction s as [|c s IH]; [reflexivity|]. cbn.
  destruct (JS.isWhiteSpace c) eqn:E; [exact IH|]. cbn. rewrite E.
  reflexivity.
Qed.

Lemma trimEnd_idempotent (s : string) :
  JS.trimEnd (JS.trimEnd s) = JS.trimEnd s.
Proof.
  unfold JS.trimEnd. rewrite reverse_involutive, trimStart_idempotent.
  reflexivity.
Qed.

Lemma trim_idempotent (s : string) : JS.trim (JS.trim s) = JS.trim s.
Proof.
  unfold JS.trim. rewrite trim_commute, trimStart_idempotent.
  apply trimEnd_idempotent.
Qed.

(** One code unit at a time. *)
Lemma lowerChar_idempotent (c : ascii) :
  JS.lowerChar (JS.lowerChar c) = JS.lowerChar c.
Proof. destruct c as [[] [] [] [] [] [] [] []]; reflexivity. Qed.

Lemma lowerChar_punctuation (c : ascii) :
  JS.isCommaOrPeriod (JS.lowerChar c) = JS.isCommaOrPeriod c.
Proof. destruct c as [[] [] [] [] [] [] [] []]; reflexivity. Qed.

Lemma lowerChar_whiteSpace (c : ascii) :
  JS.isWhiteSpace (JS.lowerChar c) = JS.isWhiteSpace c.
Proof. destruct c as [[] [] [] [] [] [] [] []]; reflexivity. Qed.

Lemma whiteSpace_not_punctuation (c : ascii) :
  JS.isWhiteSpace c = true -> JS.isCommaOrPeriod c = false.
Proof. destruct c as [[] [] [] [] [] [] [] []]; cbv; congruence. Qed.

Lemma toLowerCase_idempotent (s : string) :
  JS.toLowerCase (JS.toLowerCase s) = JS.toLowerCase s.
Proof.
  unfold JS.toLowerCase. induction s as [|c s IH]; cbn; [reflexivity|].
  rewrite lowerChar_idempotent, IH. reflexivity.
Qed.

Lemma removeAll_toLowerCase (s : string) :
  JS.removeAll JS.isCommaOrPeriod (JS.toLowerCase s)
  = JS.toLowerCase (JS.removeAll JS.isCommaOrPeriod s).
Proof.
  unfold JS.toLowerCase. induction s as [|c s IH]; cbn; [reflexivity|].
  rewrite lowerChar_punctuation.
  destruct (JS.isCommaOrPeriod c); cbn; rewrite IH; reflexivity.
Qed.

Lemma removeAll_idempotent (q : ascii -> bool) (s : string) :
  JS.removeAll q (JS.removeAll q s) = JS.removeAll q s.
Proof.
  induction s as [|c s IH]; cbn; [reflexivity|].
  destruct (q c) eqn:E; cbn; [exact IH|]. rewrite E, IH. reflexivity.
Qed.

Lemma trimStart_toLowerCase (s : string) :
  JS.trimStart (JS.toLowerCase s) = JS.toLowerCase (JS.trimStart s).
Proof.
  unfold JS.toLowerCase. induction s as [|c s IH]; cbn; [reflexivity|].
  rewrite lowerChar_whiteSpace.
  destruct (JS.isWhiteSpace c); [exact IH | reflexivity].
Qed.

Lemma mapChars_revOnto (f : ascii -> ascii) (s : string) : forall acc,
  JS.mapChars f (JS.revOnto s acc)
  = JS.revOnto (JS.mapChars f s) (JS.mapChars f acc).
Proof.
  induction s as [|c s IH]; intros acc; cbn; [reflexivity|].
  rewrite IH. reflexivity.
Qed.

Lemma removeAll_revOnto (q : ascii -> bool) (s : string) : forall acc,
  JS.removeAll q (JS.revOnto s acc)
  = JS.revOnto (JS.removeAll q s) (JS.removeAll q acc).
Proof.
  induction s as [|c s IH]; intros acc; cbn; [reflexivity|].
  rewrite IH. cbn. destruct (q c); reflexivity.
Qed.

Lemma trim_toLowerCase (s : string) :
  JS.trim (JS.toLowerCase s) = JS.toLowerCase (JS.trim s).
Proof.
  unfold JS.trim, JS.trimEnd, JS.reverse.
  rewrite trimStart_toLowerCase.
  unfold JS.toLowerCase at 1. rewrite <- (mapChars_revOnto _ _ "").
  fold (JS.toLowerCase (JS.revOnto (JS.trimStart s) "")).
  rewrite trimStart_toLowerCase.
  unfold JS.toLowerCase at 1. rewrite <- (mapChars_revOnto _ _ "").
  reflexivity.
Qed.

Lemma trimStart_removeAll (s : string) :
  JS.trimStart (JS.removeAll JS.isCommaOrPeriod (JS.trimStart s))
  = JS.trimStart (JS.removeAll JS.isCommaOrPeriod s).
Proof.
  induction s as [|c s IH]; [reflexivity|]. cbn [JS.trimStart].
  destruct (JS.isWhiteSpace c) eqn:E; [|reflexivity].
  cbn [JS.removeAll]. rewrite (whiteSpace_not_punctuation c E).
  cbn [JS.trimStart]. rewrite E. exact IH.
Qed.

Lemma trimEnd_removeAll (s : string) :
  JS.trimEnd (JS.removeAll JS.isCommaOrPeriod (JS.trimEnd s))
  = JS.trimEnd (JS.removeAll JS.isCommaOrPeriod s).
Proof.
  unfold JS.trimEnd, JS.reverse.
  rewrite <- (removeAll_revOnto _ _ ""). cbn [JS.removeAll].
  fold (JS.reverse (JS.trimStart (JS.revOnto s ""))).
  fold (JS.reverse (JS.reverse (JS.trimStart (JS.revOnto s "")))).
  rewrite reverse_involutive, trimStart_removeAll.
  rewrite (removeAll_revOnto _ s ""). reflexivity.
Qed.

Lemma trim_removeAll (s : string) :
  JS.trim (JS.removeAll JS.isCommaOrPeriod (JS.trim s))
  = JS.trim (JS.removeAll JS.isCommaOrPeriod s).
Proof.
  unfold JS.trim.
  rewrite <- (trim_commute (JS.removeAll _ (JS.trimEnd (JS.trimStart s)))).
  rewrite trimEnd_removeAll, trim_commute, trimStart_removeAll.
  reflexivity.
Qed.

(** X12. On text of code units below 256, [normalizeLocation] does not
    see letter case, commas and periods, or white space around the
    text, and normalizing twice is normalizing once: a location and
    any such variant of it normalize to the same string. *)
Theorem normalizeLocation_canonical (s : string) :
  latin1 s ->
  SearchForm.normalizeLocation (SearchForm.normalizeLocation s)
  = SearchForm.normalizeLocation s
  /\ SearchForm.normalizeLocation (JS.toLowerCase s)
     = SearchForm.normalizeLocation s
  /\ SearchForm.normalizeLocation (JS.removeAll JS.isCommaOrPeriod s)
     = SearchForm.normalizeLocation s
  /\ SearchForm.normalizeLocation (JS.trim s)
     = SearchForm.normalizeLocation s.
Proof.
  intros _. unfold SearchForm.normalizeLocation.
  assert (Htrim : JS.trim (JS.removeAll JS.isCommaOrPeriod
                             (JS.toLowerCase (JS.trim s)))
                  = JS.trim (JS.removeAll JS.isCommaOrPeriod
                               (JS.toLowerCase s))).
  { rewrite <- trim_toLowerCase. apply trim_removeAll. }
  repeat split.
  - rewrite <- trim_toLowerCase, removeAll_toLowerCase.
    rewrite toLowerCase_idempotent, <- removeAll_toLowerCase.
    rewrite trim_removeAll, removeAll_idempotent. reflexivity.
  - rewrite toLowerCase_idempotent. reflexivity.
  - rewrite <- removeAll_toLowerCase, removeAll_idempotent. reflexivity.
  - exact Htrim.
Qed.

End Normalization.

(** * Further properties of the trip card *)

Section PhoneNumbers.

Abbreviation digitsOf := (JS.removeAll (fun c => negb (JS.isDigit c))).

Lemma removeAll_append (q : ascii -> bool) (a b : string) :
  JS.removeAll q (a +:+ b) = JS.removeAll q a +:+ JS.removeAll q b.
Proof.
  induction a as [|x a IH]; [reflexivity|].
  change (String x a +:+ b) with (String x (a +:+ b)). cbn [JS.removeAll].
  rewrite IH. destruct (q x); reflexivity.
Qed.

Lemma append_empty_l (s : string) : "" +:+ s = s.
Proof. reflexivity. Qed.

Lemma substring_none (s : string) : String.substring 0 0 s = "".
Proof. destruct s; reflexivity. Qed.

Lemma digitsOf_allDigits (s : string) :
  JS.allDigits s = true -> digitsOf s = s.
Proof.
  induction s as [|c s IH]; [reflexivity|]. cbn. intros H.
  apply andb_true_iff in H. destruct H as [Hc Hs].
  rewrite Hc. cbn. rewrite (IH Hs). reflexivity.
Qed.

Lemma allDigits_substring (s : string) : forall a b : nat,
  JS.allDigits s = true -> JS.allDigits (String.substring a b s) = true.
Proof.
  induction s as [|c s IH]; intros a b H.
  - destruct a, b; reflexivity.
  - cbn in H. apply andb_true_iff in H. destruct H as [Hc Hs].
    destruct a as [|a]; cbn.
    + destruct b as [|b]; [reflexivity|]. cbn. rewrite Hc. cbn.
      apply IH. exact Hs.
    + apply IH. exact Hs.
Qed.

Lemma substring_join (s : string) : forall a b c : nat,
  (a + b + c <= String.length s)%nat ->
  String.substring a b s +:+ String.substring (a + b) c s
  = String.substring a (b + c) s.
Proof.
  induction s as [|x s IH]; intros a b c H.
  - cbn in H. assert (a = 0%nat) by lia. assert (b = 0%nat) by lia.
    assert (c = 0%nat) by lia. subst. reflexivity.
  - cbn in H. destruct a as [|a].
    + destruct b as [|b].
      * reflexivity.
      * cbn [String.substring Nat.add].
        change (String x ?u +:+ ?v) with (String x (u +:+ v)).
        f_equal. apply (IH 0%nat b c). lia.
    + cbn [String.substring Nat.add]. apply IH. lia.
Qed.

Lemma substring_whole (s : string) :
  String.substring 0 (String.length s) s = s.
Proof. induction s as [|x s IH]; cbn; [reflexivity | rewrite IH; reflexivity]. Qed.

(** The three cases of [formatPhoneNumber], on the digits of the
    input. *)
Lemma formatPhoneNumber_cases (s : string) :
  let d := digitsOf s in
  let n := String.length d in
  TripCard.formatPhoneNumber s
  = if (n =? 10)%nat
    then "+91 " +:+ String.substring 0 5 d +:+ " " +:+ String.substring 5 5 d
    else if (10 <? n)%nat
    then "+" +:+ String.substring 0 (n - 10) d +:+ " "
         +:+ String.substring (n - 10) 5 d +:+ " "
         +:+ String.substring (n - 10 + 5) 5 d
    else s.
Proof.
  intros d n. assert (Hlen : JS.len d = Z.of_nat n) by reflexivity.
  unfold TripCard.formatPhoneNumber. fold d.
  destruct s as [|c0 rest] eqn:Es; [reflexivity|].
  rewrite <- Es in *. replace (JS.truthy s) with true
    by (rewrite Es; reflexivity).
  cbn [negb].
  destruct (Nat.eqb_spec n 10) as [Hn|Hn].
  - rewrite Hlen, Hn. change (Z.of_nat 10 =? 10) with true.
    unfold JS.slice. rewrite Hlen, Hn. reflexivity.
  - destruct (Z.eqb_spec (JS.len d) 10) as [E|_]; [lia|].
    destruct (Nat.ltb_spec 10 n) as [Hgt|Hle].
    + destruct (Z.gtb_spec (JS.len d) 10) as [_|E]; [|lia].
      assert (Hcc : JS.slice d 0 (Some (-10))
                    = String.substring 0 (n - 10) d).
      { unfold JS.slice, JS.clampIndex. rewrite Hlen.
        change (0 <? 0) with false. change (-10 <? 0) with true.
        cbn iota. f_equal; lia. }
      assert (Hnum : JS.slice d (-10) None
                     = String.substring (n - 10) 10 d).
      { unfold JS.slice, JS.clampIndex. rewrite Hlen.
        change (-10 <? 0) with true. cbn iota. f_equal; lia. }
      rewrite Hcc, Hnum.
      assert (Hnl : JS.len (String.substring (n - 10) 10 d) = 10).
      { unfold JS.len. rewrite substring_length; [reflexivity|].
        fold n. lia. }
      unfold JS.slice. rewrite Hnl.
      change (JS.clampIndex 10 0) with 0. change (JS.clampIndex 10 5) with 5.
      change (Z.to_nat 0) with 0%nat. change (Z.to_nat 5) with 5%nat.
      change (Z.to_nat ((5 - 0) `max` 0)) with 5%nat.
      change (Z.to_nat ((10 - 5) `max` 0)) with 5%nat.
      rewrite (substring_substring d 0 5 (n - 10) 10) by lia.
      rewrite (substring_substring d 5 5 (n - 10) 10) by lia.
      repeat f_equal; lia.
    + destruct (Z.gtb_spec (JS.len d) 10) as [E|_]; [lia|]. reflexivity.
Qed.

Lemma formatPhoneNumber_digits (s : string) :
  let d := digitsOf s in
  digitsOf (TripCard.formatPhoneNumber s)
  = if (String.length d =? 10)%nat then "91" +:+ d else d.
Proof.
  intros d. rewrite formatPhoneNumber_cases. fold d.
  assert (Hd : JS.allDigits d = true)
    by apply removeAll_nondigits_allDigits.
  destruct (Nat.eqb_spec (String.length d) 10) as [Hn|Hn].
  - change ("+91 " +:+ ?u) with (String "+" (String "9" (String "1"
                                   (String " " u)))).
    cbn [JS.removeAll]. change (negb (JS.isDigit "+")) with true.
    change (negb (JS.isDigit "9")) with false.
    change (negb (JS.isDigit "1")) with false.
    change (negb (JS.isDigit " ")) with true. cbn iota.
    rewrite !removeAll_append.
    rewrite !(digitsOf_allDigits (String.substring _ _ d))
      by (apply allDigits_substring; exact Hd).
    change (digitsOf " ") with "".
    change ("" +:+ String.substring 5 5 d) with (String.substring 5 5 d).
    pose proof (substring_join d 0 5 5) as Hj. cbn [Nat.add] in Hj.
    rewrite Hj by lia. rewrite <- Hn, substring_whole.
    reflexivity.
  - destruct (Nat.ltb_spec 10 (String.length d)) as [Hgt|Hle].
    + change ("+" +:+ ?u) with (String "+" u).
      cbn [JS.removeAll]. change (negb (JS.isDigit "+")) with true.
      cbn iota. rewrite !removeAll_append.
      rewrite !(digitsOf_allDigits (String.substring _ _ d))
        by (apply allDigits_substring; exact Hd).
      change (digitsOf " ") with "".
      rewrite !append_empty_l.
      rewrite (substring_join d (String.length d - 10) 5 5) by lia.
      change (5 + 5)%nat with 10%nat.
      pose proof (substring_join d 0 (String.length d - 10) 10) as Hj.
      cbn [Nat.add] in Hj. rewrite Hj by lia.
      replace (String.length d - 10 + 10)%nat with (String.length d)
        by lia.
      apply substring_whole.
    + reflexivity.
Qed.

(** X13. Formatting a phone number keeps its digits, all of them and
    in their order, with 91 put in front of a number of ten digits;
    and a formatted number formats to itself. *)
Theorem formatPhoneNumber_stable (s : string) :
  let d := digitsOf s in
  digitsOf (TripCard.formatPhoneNumber s)
  = (if (String.length d =? 10)%nat then "91" +:+ d else d)
  /\ TripCard.formatPhoneNumber (TripCard.formatPhoneNumber s)
     = TripCard.formatPhoneNumber s.
Proof.
  intros d. split; [apply formatPhoneNumber_digits|].
  pose proof (formatPhoneNumber_digits s) as Hdig.
  pose proof (formatPhoneNumber_cases s) as Hs.
  pose proof (formatPhoneNumber_cases (TripCard.formatPhoneNumber s)) as Ho.
  cbv zeta in Hdig, Hs, Ho. fold d in Hdig, Hs.
  rewrite Hdig in Ho. clear Hdig. revert Hs Ho.
  destruct (Nat.eqb_spec (String.length d) 10) as [Hn|Hn].
  - intros Hs Ho. rewrite Ho, Hs.
    change ("91" +:+ d) with (String "9" (String "1" d)).
    cbn [String.length]. rewrite Hn.
    change (12 =? 10)%nat with false. change (10 <? 12)%nat with true.
    cbn iota. change (12 - 10)%nat with 2%nat. cbn [Nat.add].
    cbn [String.substring]. rewrite substring_none. reflexivity.
  - destruct (Nat.ltb_spec 10 (String.length d)) as [Hgt|Hle].
    + intros Hs Ho. rewrite Ho, Hs.
      destruct (Nat.eqb_spec (String.length d) 10); [lia|].
      destruct (Nat.ltb_spec 10 (String.length d)); [reflexivity | lia].
    + intros Hs Ho. rewrite Ho, Hs.
      destruct (Nat.eqb_spec (String.length d) 10); [lia|].
      destruct (Nat.ltb_spec 10 (String.length d)); [lia | reflexivity].
Qed.

End PhoneNumbers.

Section JoinAgain.

Import TripCard.

Variable p : Props.
Variable api : Api.

(** X14. To a user who is neither the owner nor a passenger, a card
    that shows its actions offers exactly one control: the join button
    while seats are left, the "Trip Full" badge once they are not. *)
Theorem stranger_sees_one_control (user : option User) (st : State) :
  isOwner user (localTrip st) = false ->
  isPassenger (localTrip st) = false ->
  showActions p = true ->
  actionButtons p user st
  = [ if currentPassengers (localTrip st) <? maxPassengers (localTrip st)
      then JoinButton (isLoading st)
             (if isLoading st then "Joining..." else "Join Trip")
      else Badge "Trip Full" ].
Proof.
  intros Hown Hpass Hshow. unfold actionButtons, canJoin, isFull, when.
  rewrite Hown, Hpass, Hshow. cbn [negb andb].
  destruct (Z.ltb_spec (currentPassengers (localTrip st))
              (maxPassengers (localTrip st))) as [Hlt|Hge].
  - replace (maxPassengers (localTrip st) <=? currentPassengers (localTrip st))
      with false by lia.
    reflexivity.
  - replace (maxPassengers (localTrip st) <=? currentPassengers (localTrip st))
      with true by lia.
    reflexivity.
Qed.

(** X15. To the owner and to a passenger the card shows badges only:
    never the join button and never "Trip Full", whatever the
    occupancy. *)
Theorem member_sees_badges_only (user : option User) (st : State)
    (c : Control) :
  isOwner user (localTrip st) = true \/ isPassenger (localTrip st) = true ->
  In c (actionButtons p user st) ->
  c = Badge "You're Joining" \/ c = Badge "Your Trip".
Proof.
  intros Hrole Hin. unfold actionButtons, canJoin, isFull, when in Hin.
  destruct (isOwner user (localTrip st)), (isPassenger (localTrip st));
    try (destruct Hrole; discriminate);
    destruct (currentPassengers (localTrip st) <? maxPassengers (localTrip st)),
      (maxPassengers (localTrip st) <=? currentPassengers (localTrip st)),
      (showActions p);
    cbn in Hin; intuition (subst; auto).
Qed.

(** X16. [handleJoin] always ends with [isLoading] switched off, and
    never ends silently: either the animation is started and its timer
    set, or the last thing it did was to show the message of the
    error, the animation flag left as it was. *)
Theorem handleJoin_settles (st : State) :
  let st' := Eff.exec (handleJoin p api) st in
  isLoading st' = false
  /\ ((isAnimating st' = true
       /\ exists before, trace st' = before ++ [SetTimeout 1000])
      \/ (isAnimating st' = isAnimating st
          /\ exists before e, trace st' = before ++ [Alert e])).
Proof.
  intros st'. subst st'. run_join.
  destruct (onJoin p) as [f|]; cbn beta iota.
  - destruct (f (id (localTrip st))) as [|e]; cbn;
      (split; [reflexivity|]).
    + left. split; [reflexivity|]. eexists. reflexivity.
    + right. split; [reflexivity|]. do 2 eexists. reflexivity.
  - destruct (joinTrip api (id (localTrip st))) as [|e]; cbn.
    + destruct (onUpdate p) as [g|]; cbn.
      * destruct (g (updatedTrip (localTrip st))) as [|e]; cbn;
          (split; [reflexivity|]).
        -- left. split; [reflexivity|]. eexists. reflexivity.
        -- right. split; [reflexivity|]. do 2 eexists. reflexivity.
      * split; [reflexivity|].
        left. split; [reflexivity|]. eexists. reflexivity.
    + split; [reflexivity|].
      right. split; [reflexivity|]. do 2 eexists. reflexivity.
Qed.

(** The local trip after a direct join that the server accepted. *)
Lemma handleJoin_direct_localTrip (st : State) :
  onJoin p = None ->
  joinTrip api (id (localTrip st)) = Resolved ->
  localTrip (Eff.exec (handleJoin p api) st) = updatedTrip (localTrip st)
  /\ isLoading (Eff.exec (handleJoin p api) st) = false.
Proof.
  intros Hp Hapi.
  destruct (handleJoin_direct_resolved p api st Hp Hapi) as [rest Hrun].
  rewrite Hrun. split; reflexivity.
Qed.

(** X17. A direct join that succeeds changes the count and nothing
    else of the local trip: the role of the user and the list of
    passengers are as before. So the join button stays for that user
    as long as a seat is left after the join, and a second accepted
    join counts the user a second time. *)
Theorem join_is_repeatable (user : option User) (st : State) :
  onJoin p = None ->
  joinTrip api (id (localTrip st)) = Resolved ->
  let st1 := Eff.exec (handleJoin p api) st in
  let st2 := Eff.exec (handleJoin p api) st1 in
  isOwner user (localTrip st1) = isOwner user (localTrip st)
  /\ isPassenger (localTrip st1) = isPassenger (localTrip st)
  /\ passengers (localTrip st1) = passengers (localTrip st)
  /\ canJoin user (localTrip st1)
     = negb (isOwner user (localTrip st)) && negb (isPassenger (localTrip st))
       && (currentPassengers (localTrip st) + 1
           <? maxPassengers (localTrip st))
  /\ currentPassengers (localTrip st2)
     = currentPassengers (localTrip st) + 2.
Proof.
  intros Hp Hapi st1 st2.
  destruct (handleJoin_direct_localTrip st Hp Hapi) as [H1 _].
  fold st1 in H1.
  assert (Hid : id (localTrip st1) = id (localTrip st))
    by (rewrite H1; reflexivity).
  assert (Hapi1 : joinTrip api (id (localTrip st1)) = Resolved)
    by (rewrite Hid; exact Hapi).
  destruct (handleJoin_direct_localTrip st1 Hp Hapi1) as [H2 _].
  fold st2 in H2. rewrite H2, H1. unfold canJoin.
  repeat split; cbn; lia.
Qed.

(** X18. The card is rendered transparent exactly while [isAnimating]
    is set: a direct join that succeeded, with no [onUpdate] or one
    that returns, leaves the card with the pulse classes and with
    [opacity-0 scale-95] both. *)
Theorem joined_card_is_faded (st : State) :
  onJoin p = None ->
  joinTrip api (id (localTrip st)) = Resolved ->
  (forall f, onUpdate p = Some f ->
             f (updatedTrip (localTrip st)) = Resolved) ->
  let st' := Eff.exec (handleJoin p api) st in
  Card.pulseClass (isAnimating st') = "animate-pulse bg-green-50"
  /\ Card.fadeClass (isAnimating st') = "opacity-0 scale-95"
  /\ (forall b, Card.fadeClass b = "opacity-0 scale-95" <-> b = true).
Proof.
  intros Hp Hapi Hupd st'.
  assert (Hanim : isAnimating st' = true).
  { subst st'. run_join. rewrite Hp. cbn beta iota. rewrite Hapi. cbn.
    destruct (onUpdate p) as [g|] eqn:Hg; cbn; [|reflexivity].
    rewrite (Hupd g eq_refl). reflexivity. }
  rewrite Hanim. repeat split.
  - destruct b; [reflexivity | cbn; discriminate].
  - intros ->. reflexivity.
Qed.

End JoinAgain.

Section EditAndDelete.

Import Card.

Variable EditData : Type.
Variable p : TripCard.Props.
Variable api : Api EditData.

Ltac run_card :=
  unfold handleEdit, handleDelete, awaitResult, awaitOutcome, callOnUpdate,
    callOnDelete, setLocalTrip, setIsLoading, setIsAnimating,
    setIsEditModalOpen, setIsDeleteModalOpen, setTimeout, alert, log, await,
    Eff.exec, Eff.tryFinally, Eff.tryCatch, Eff.bind, Eff.gets, Eff.modify,
    Eff.ret, Eff.throw;
  cbn beta iota.

(** X19. When [updateTrip] fails, [handleEdit] shows the message and
    changes nothing else: the local trip, the open dialog and the
    timers are as before, [onUpdate] is not called, and [isLoading] is
    off again. *)
Theorem handleEdit_failed (editData : EditData) (st : State) (e : string) :
  updateTrip api (TripCard.id (localTrip st)) editData = Failed e ->
  Eff.exec (handleEdit p api editData) st
  = {| localTrip := localTrip st; isLoading := false;
       isAnimating := isAnimating st;
       isEditModalOpen := isEditModalOpen st;
       isDeleteModalOpen := isDeleteModalOpen st;
       timers := timers st;
       trace := trace st
                ++ [CallUpdateTrip (TripCard.id (localTrip st));
                    Settled false; Alert e] |}.
Proof.
  intros Hapi. run_card. rewrite Hapi. cbn. rewrite <- !app_assoc.
  reflexivity.
Qed.

(** X20. When [updateTrip] succeeds and [onUpdate] is absent or
    returns, the local trip becomes the trip the server returned,
    whatever the edit form held; [onUpdate] is told of that trip, the
    edit dialog is closed, [isLoading] is off, and the animation runs
    until its timer of one second clears it. *)
Theorem handleEdit_fulfilled (editData : EditData) (st : State)
    (t' : TripCard.Trip) :
  updateTrip api (TripCard.id (localTrip st)) editData = Fulfilled t' ->
  (forall f, TripCard.onUpdate p = Some f -> f t' = Resolved) ->
  timers st = [] ->
  let st' := Eff.exec (handleEdit p api editData) st in
  st' = {| localTrip := t'; isLoading := false; isAnimating := true;
           isEditModalOpen := false;
           isDeleteModalOpen := isDeleteModalOpen st;
           timers := [(1000, ClearAnimating)];
           trace := trace st
                    ++ [CallUpdateTrip (TripCard.id (localTrip st));
                        Settled true; SetLocalTrip t']
                    ++ match TripCard.onUpdate p with
                       | Some _ => [CallOnUpdate t']
                       | None => []
                       end |}
  /\ isAnimating (expire p st') = false
  /\ localTrip (expire p st') = t'.
Proof.
  intros Hapi Hupd Htimers st'. subst st'. unfold expire. run_card.
  rewrite Hapi. cbn. rewrite Htimers.
  destruct (TripCard.onUpdate p) as [f|]; cbn.
  - rewrite (Hupd f eq_refl). cbn. rewrite <- !app_assoc. cbn.
    repeat split; reflexivity.
  - rewrite <- !app_assoc. cbn. repeat split; reflexivity.
Qed.

(** X21. When [updateTrip] succeeds but [onUpdate] throws, the local
    trip is replaced by the server's all the same, and the message of
    the error is shown; the edit dialog is not closed, no animation is
    started and no timer set. *)
Theorem handleEdit_onUpdate_throws (editData : EditData) (st : State)
    (t' : TripCard.Trip) (f : TripCard.Trip -> Outcome) (e : string) :
  updateTrip api (TripCard.id (localTrip st)) editData = Fulfilled t' ->
  TripCard.onUpdate p = Some f ->
  f t' = Rejected e ->
  Eff.exec (handleEdit p api editData) st
  = {| localTrip := t'; isLoading := false;
       isAnimating := isAnimating st;
       isEditModalOpen := isEditModalOpen st;
       isDeleteModalOpen := isDeleteModalOpen st;
       timers := timers st;
       trace := trace st
                ++ [CallUpdateTrip (TripCard.id (localTrip st));
                    Settled true; SetLocalTrip t'; CallOnUpdate t';
                    Alert e] |}.
Proof.
  intros Hapi Hp Hf. run_card. rewrite Hapi. cbn. rewrite Hp. cbn.
  rewrite Hf. cbn. rewrite <- !app_assoc. reflexivity.
Qed.

(** X22. When [deleteTrip] succeeds, [handleDelete] does not call
    [onDelete] itself: it starts the animation, leaves [isLoading] on
    and the dialog as it was, and sets a timer of half a second; when
    that timer expires, [onDelete], if there is one, is called with
    the id of the trip, once. *)
Theorem handleDelete_resolved (st : State) :
  deleteTrip api (TripCard.id (localTrip st)) = Resolved ->
  timers st = [] ->
  let tripId := TripCard.id (localTrip st) in
  let st' := Eff.exec (handleDelete p api) st in
  st' = {| localTrip := localTrip st; isLoading := true;
           isAnimating := true;
           isEditModalOpen := isEditModalOpen st;
           isDeleteModalOpen := isDeleteModalOpen st;
           timers := [(500, NotifyDeleted tripId)];
           trace := trace st ++ [CallDeleteTrip tripId; Settled true] |}
  /\ timers (expire p st') = []
  /\ trace (expire p st')
     = trace st'
       ++ match TripCard.onDelete p with
          | Some _ => [CallOnDelete tripId]
          | None => []
          end.
Proof.
  intros Hapi Htimers tripId st'. subst st' tripId. unfold expire.
  run_card. rewrite Hapi. cbn. rewrite Htimers. cbn.
  rewrite <- !app_assoc. cbn.
  split; [reflexivity|].
  unfold runCallback. run_card.
  destruct (TripCard.onDelete p) as [f|]; cbn.
  - destruct (f (TripCard.id (localTrip st))); cbn;
      rewrite <- ?app_assoc; split; reflexivity.
  - rewrite ?app_nil_r. split; reflexivity.
Qed.

(** X23. When [deleteTrip] fails, [handleDelete] shows the message,
    switches [isLoading] off and sets no timer: the card stays, and
    [onDelete] is not called now or later. *)
Theorem handleDelete_rejected (st : State) (e : string) :
  deleteTrip api (TripCard.id (localTrip st)) = Rejected e ->
  let st' := Eff.exec (handleDelete p api) st in
  st' = {| localTrip := localTrip st; isLoading := false;
           isAnimating := isAnimating st;
           isEditModalOpen := isEditModalOpen st;
           isDeleteModalOpen := isDeleteModalOpen st;
           timers := timers st;
           trace := trace st
                    ++ [CallDeleteTrip (TripCard.id (localTrip st));
                        Settled false; Alert e] |}
  /\ (timers st = [] -> expire p st' = st').
Proof.
  intros Hapi st'. subst st'. run_card. rewrite Hapi. cbn.
  rewrite <- !app_assoc. cbn. split; [reflexivity|].
  intros Ht. unfold expire. cbn. rewrite Ht. reflexivity.
Qed.

End EditAndDelete.

Section Contact.

Import Card.

Variable h : Host.

Lemma join_empty_iff (l : list string) :
  Forall (fun s => s <> "") l -> (join "," l = "" <-> l = []).
Proof.
  intros Hl. destruct l as [|x rest]; [tauto|].
  split; [|discriminate]. intros H. exfalso.
  apply Forall_cons in Hl. destruct Hl as [Hx _].
  destruct x as [|c x]; [congruence|].
  destruct rest; discriminate.
Qed.

Lemma phonesOf_nonempty (ps : list TripCard.Passenger) :
  Forall (fun s => s <> "") (phonesOf ps).
Proof.
  induction ps as [|q ps IH]; [constructor|]. unfold phonesOf. cbn.
  destruct (TripCard.passenger_phone q) as [[|c ph]|]; cbn;
    try exact IH.
  constructor; [discriminate | exact IH].
Qed.

Lemma phonesOf_nil_iff (ps : list TripCard.Passenger) :
  phonesOf ps = []
  <-> forall q, In q ps ->
        TripCard.passenger_phone q = None
        \/ TripCard.passenger_phone q = Some "".
Proof.
  induction ps as [|q ps IH]; [cbn; tauto|]. unfold phonesOf. cbn.
  destruct (TripCard.passenger_phone q) as [[|c ph]|] eqn:E; cbn.
  - rewrite IH. split.
    + intros H x [<-|Hx]; [tauto | apply H; exact Hx].
    + intros H x Hx. apply H. right. exact Hx.
  - split; [discriminate|]. intros H.
    destruct (H q (or_introl eq_refl)) as [H1|H1]; congruence.
  - rewrite IH. split.
    + intros H x [<-|Hx]; [tauto | apply H; exact Hx].
    + intros H x Hx. apply H. right. exact Hx.
Qed.

(** X24. The button that messages all passengers does nothing exactly
    when no passenger has a phone number that is not empty; otherwise
    it opens an SMS to those numbers, in the order of the roster and
    separated by commas, passengers without a number being skipped. *)
Theorem group_message_recipients (t : TripCard.Trip) :
  (handleContactAll h t = None
   <-> forall q, In q (TripCard.passengers t) ->
         TripCard.passenger_phone q = None
         \/ TripCard.passenger_phone q = Some "")
  /\ (forall href, handleContactAll h t = Some href ->
        href = "sms:" +:+ join "," (phonesOf (TripCard.passengers t))
               +:+ "?body=" +:+ URI.encodeURIComponent (groupMessage h t)).
Proof.
  unfold handleContactAll, allPhones, orElse.
  rewrite <- phonesOf_nil_iff.
  rewrite <- (join_empty_iff _ (phonesOf_nonempty (TripCard.passengers t))).
  destruct (join "," (phonesOf (TripCard.passengers t))) as [|c r];
    cbn; split.
  - tauto.
  - discriminate.
  - split; discriminate.
  - intros href H. injection H as <-. reflexivity.
Qed.

Lemma allChars_append (q : ascii -> bool) (a b : string) :
  URI.allChars q (a +:+ b) = URI.allChars q a && URI.allChars q b.
Proof.
  induction a as [|x a IH]; [reflexivity|].
  change (String x a +:+ b) with (String x (a +:+ b)). cbn.
  rewrite IH. apply andb_assoc.
Qed.

Lemma encodeChar_safe (c : ascii) :
  URI.allChars URI.isSafe (URI.encodeChar c) = true.
Proof. destruct c as [[] [] [] [] [] [] [] []]; reflexivity. Qed.

Lemma encodeURIComponent_safe (s : string) :
  URI.allChars URI.isSafe (URI.encodeURIComponent s) = true.
Proof.
  induction s as [|c s IH]; [reflexivity|]. cbn [URI.encodeURIComponent].
  rewrite allChars_append, encodeChar_safe, IH. reflexivity.
Qed.

(** X25. The handlers for a call, an SMS and an e-mail do nothing for
    an empty number or address. Otherwise the SMS and the e-mail open
    a URI whose text parts are encoded: they hold unreserved characters
    and percent escapes only, hence no [&], [?], [#], [=] or space
    that would end the part early. *)
Theorem contact_links_are_encoded (user : option TripCard.User)
    (t : TripCard.Trip) :
  (forall target name : string,
     (handlePhoneCall target = None <-> target = "")
     /\ (handleSMS h t target name = None <-> target = "")
     /\ (handleEmail h user t target name = None <-> target = ""))
  /\ (forall phone name href,
        handleSMS h t phone name = Some href ->
        exists body,
          href = "sms:" +:+ phone +:+ "?body=" +:+ body
          /\ URI.allChars URI.isSafe body = true)
  /\ (forall email name href,
        handleEmail h user t email name = Some href ->
        exists subject body,
          href = "mailto:" +:+ email +:+ "?subject=" +:+ subject
                 +:+ "&body=" +:+ body
          /\ URI.allChars URI.isSafe subject = true
          /\ URI.allChars URI.isSafe body = true)
  /\ (forall c : ascii,
        URI.isSafe c = true ->
        c <> "&"%char /\ c <> "?"%char /\ c <> "#"%char /\ c <> "="%char
        /\ c <> " "%char).
Proof.
  unfold handlePhoneCall, handleSMS, handleEmail.
  split; [|split; [|split]].
  - intros target name.
    destruct target; cbn; repeat split; intros; congruence.
  - intros phone name href H.
    destruct (JS.truthy phone); [|discriminate].
    injection H as <-. eexists. split; [reflexivity|].
    apply encodeURIComponent_safe.
  - intros email name href H.
    destruct (JS.truthy email); [|discriminate].
    injection H as <-. do 2 eexists.
    split; [reflexivity|]. split; apply encodeURIComponent_safe.
  - intros c Hc. repeat split; intros ->; discriminate.
Qed.

(** X26. The card never shows both phone sections: "Your contact" is
    for the owner, "Contact Trip Initiator" for everybody else. When
    the trip has no driver phone, the number shown to a viewer who is
    not the owner as that of the initiator is the viewer's own. *)
Theorem phone_sections (user : option TripCard.User) (t : TripCard.Trip) :
  (ownSection user t = None \/ initiatorSection user t = None)
  /\ (forall u,
        user = Some u ->
        TripCard.isOwner user t = false ->
        TripCard.driver t = None
        \/ (exists d, TripCard.driver t = Some d
                      /\ TripCard.driver_phone d = "") ->
        TripCard.user_phone u <> "" ->
        initiatorSection user t
        = Some (TripCard.formatPhoneNumber (TripCard.user_phone u))).
Proof.
  split.
  - unfold ownSection, initiatorSection.
    destruct (TripCard.isOwner user t).
    + right. rewrite andb_false_r. reflexivity.
    + left. destruct user; reflexivity.
  - intros u -> Hown Hdriver Hphone.
    unfold initiatorSection, initiatorPhone, orElse. rewrite Hown.
    assert (Hd : match TripCard.driver t with
                 | Some d => TripCard.driver_phone d
                 | None => ""
                 end = "").
    { destruct Hdriver as [->|(d & -> & ->)]; reflexivity. }
    rewrite Hd. cbn [JS.truthy].
    destruct (TripCard.user_phone u) as [|c r]; [congruence|].
    reflexivity.
Qed.

End Contact.

(** * The properties above on sample data *)

Lemma normalizeLocation_canonical_witness :
  SearchForm.normalizeLocation (SearchForm.normalizeLocation " New Delhi, ")
  = SearchForm.normalizeLocation " New Delhi, "
  /\ SearchForm.normalizeLocation (JS.toLowerCase " New Delhi, ")
     = SearchForm.normalizeLocation " New Delhi, "
  /\ SearchForm.normalizeLocation
       (JS.removeAll JS.isCommaOrPeriod " New Delhi, ")
     = SearchForm.normalizeLocation " New Delhi, "
  /\ SearchForm.normalizeLocation (JS.trim " New Delhi, ")
     = SearchForm.normalizeLocation " New Delhi, ".
Proof. exact (normalizeLocation_canonical " New Delhi, " eq_refl). Defined.

Lemma date_error_by_zone_witness :
  (SearchForm.newErrors noonIST (dated "2024-03-09") !! "departureDate"
   = Some (Some SearchForm.msg_past_date)
   <-> JS.daysFromCivil 2024 3 9 < 19792)
  /\ (SearchForm.newErrors noonEST (dated "2024-03-10") !! "departureDate"
      = Some (Some SearchForm.msg_past_date)
      <-> JS.daysFromCivil 2024 3 10 <= 19792).
Proof.
  split.
  - apply (proj1 (date_error_by_zone noonIST (dated "2024-03-09") 2024 3 9
                    eq_refl)).
    split; [discriminate | reflexivity].
  - apply (proj2 (date_error_by_zone noonEST (dated "2024-03-10") 2024 3 10
                    eq_refl)).
    split; reflexivity.
Defined.

Lemma submit_errors_shape_witness :
  ("to" = "from" \/ "to" = "to" \/ "to" = "departureDate")
  /\ exists m, Some SearchForm.msg_same_location = Some m /\ m <> "".
Proof.
  exact (submit_errors_shape quietProps noonIST (formOf sameCityForm) "to"
           (Some SearchForm.msg_same_location) eq_refl).
Defined.

Lemma submit_failure_witness :
  Eff.exec (SearchForm.handleSubmit failingProps noonIST) (formOf validForm)
  = {| SearchForm.formData := validForm;
       SearchForm.errors :=
         {[ "from" := Some SearchForm.msg_search_failed ]};
       SearchForm.pending := None;
       SearchForm.searches := [SearchForm.searchData validForm] |}.
Proof.
  exact (submit_failure failingProps noonIST (formOf validForm)
           "Network Error" eq_refl eq_refl).
Defined.

Lemma live_search_snapshot_is_stale_witness :
  let st1 := Eff.exec (SearchForm.handleChange noonIST SearchForm.name_to
                         "Pune") (formOf SearchForm.emptyForm) in
  let st2 := Eff.exec (SearchForm.handleChange noonIST
                         SearchForm.name_maxPrice "500") st1 in
  SearchForm.formData st2
  = {| SearchForm.from := ""; SearchForm.to := "Pune";
       SearchForm.departureDate := ""; SearchForm.maxPrice := 500 |}
  /\ SearchForm.searches (SearchForm.settle quietProps st2)
     = [ {| SearchForm.from := ""; SearchForm.to := "Pune";
            SearchForm.departureDate := ""; SearchForm.maxPrice := 0 |} ].
Proof.
  exact (live_search_snapshot_is_stale quietProps noonIST noonIST
           SearchForm.name_to SearchForm.name_maxPrice "Pune" "500"
           (formOf SearchForm.emptyForm) eq_refl
           ltac:(cbv; discriminate) (or_introl eq_refl)).
Defined.

Lemma reset_keeps_pending_search_witness :
  let st' := Eff.exec SearchForm.handleReset searching in
  SearchForm.formData st' = SearchForm.emptyForm
  /\ SearchForm.errors st' = ∅
  /\ SearchForm.searches st' = []
  /\ SearchForm.searches (SearchForm.settle quietProps st') = [paddedForm].
Proof.
  exact (reset_keeps_pending_search quietProps searching 1000 paddedForm
           eq_refl).
Defined.

Lemma submit_keeps_pending_search_witness :
  let st' := Eff.exec (SearchForm.handleSubmit quietProps noonIST)
               searching in
  SearchForm.formData st' = validForm
  /\ SearchForm.searches st' = [SearchForm.searchData validForm]
  /\ SearchForm.searches (SearchForm.settle quietProps st')
     = [SearchForm.searchData validForm; paddedForm].
Proof.
  exact (submit_keeps_pending_search quietProps noonIST searching 1000
           paddedForm eq_refl eq_refl).
Defined.

Lemma submitted_maxPrice_positive_witness :
  1 <= SearchForm.maxPrice
         {| SearchForm.from := "Mumbai"; SearchForm.to := "Pune";
            SearchForm.departureDate := ""; SearchForm.maxPrice := 10000 |}.
Proof.
  exact (submitted_maxPrice_positive quietProps noonIST noonIST "-40"
           (formOf validForm)
           {| SearchForm.from := "Mumbai"; SearchForm.to := "Pune";
              SearchForm.departureDate := "";
              SearchForm.maxPrice := 10000 |} eq_refl).
Defined.

Lemma stranger_sees_one_control_witness :
  TripCard.actionButtons directProps (Some stranger) (TripCard.mount openTrip)
  = [TripCard.JoinButton false "Join Trip"]
  /\ TripCard.actionButtons directProps (Some stranger)
       (TripCard.mount fullTrip)
     = [TripCard.Badge "Trip Full"].
Proof.
  split.
  - exact (stranger_sees_one_control directProps (Some stranger)
             (TripCard.mount openTrip) eq_refl eq_refl eq_refl).
  - exact (stranger_sees_one_control directProps (Some stranger)
             (TripCard.mount fullTrip) eq_refl eq_refl eq_refl).
Defined.

Lemma member_sees_badges_only_witness :
  TripCard.Badge "Your Trip" = TripCard.Badge "You're Joining"
  \/ TripCard.Badge "Your Trip" = TripCard.Badge "Your Trip".
Proof.
  exact (member_sees_badges_only directProps (Some stranger)
           (TripCard.mount editedTrip) (TripCard.Badge "Your Trip")
           (or_introl eq_refl) (or_introl eq_refl)).
Defined.

Lemma join_is_repeatable_witness :
  let st1 := Eff.exec (TripCard.handleJoin directProps apiOk)
               (TripCard.mount openTrip) in
  let st2 := Eff.exec (TripCard.handleJoin directProps apiOk) st1 in
  TripCard.isOwner (Some stranger) (TripCard.localTrip st1) = false
  /\ TripCard.isPassenger (TripCard.localTrip st1) = false
  /\ TripCard.passengers (TripCard.localTrip st1) = []
  /\ TripCard.canJoin (Some stranger) (TripCard.localTrip st1) = false
  /\ TripCard.currentPassengers (TripCard.localTrip st2) = 4.
Proof.
  exact (join_is_repeatable directProps apiOk (Some stranger)
           (TripCard.mount openTrip) eq_refl eq_refl).
Defined.

Lemma joined_card_is_faded_witness :
  let st' := Eff.exec (TripCard.handleJoin directProps apiOk)
               (TripCard.mount openTrip) in
  Card.pulseClass (TripCard.isAnimating st') = "animate-pulse bg-green-50"
  /\ Card.fadeClass (TripCard.isAnimating st') = "opacity-0 scale-95".
Proof.
  intros st'.
  destruct (joined_card_is_faded directProps apiOk (TripCard.mount openTrip)
              eq_refl eq_refl
              ltac:(intros f Hf; discriminate Hf)) as (Hpulse & Hfade & _).
  split; [exact Hpulse | exact Hfade].
Defined.

Lemma handleEdit_failed_witness :
  Eff.exec (Card.handleEdit ownerProps cardApiDown "to: Nashik")
    (Card.opened editedTrip true false)
  = {| Card.localTrip := editedTrip; Card.isLoading := false;
       Card.isAnimating := false; Card.isEditModalOpen := true;
       Card.isDeleteModalOpen := false; Card.timers := [];
       Card.trace := [Card.CallUpdateTrip 7; Card.Settled false;
                      Card.Alert "Not allowed"] |}.
Proof.
  exact (handleEdit_failed string ownerProps cardApiDown "to: Nashik"
           (Card.opened editedTrip true false) "Not allowed" eq_refl).
Defined.

Lemma handleEdit_fulfilled_witness :
  let st' := Eff.exec (Card.handleEdit ownerProps cardApiOk "to: Nashik")
               (Card.opened openTrip true false) in
  st' = {| Card.localTrip := editedTrip; Card.isLoading := false;
           Card.isAnimating := true; Card.isEditModalOpen := false;
           Card.isDeleteModalOpen := false;
           Card.timers := [(1000, Card.ClearAnimating)];
           Card.trace := [Card.CallUpdateTrip 7; Card.Settled true;
                          Card.SetLocalTrip editedTrip;
                          Card.CallOnUpdate editedTrip] |}
  /\ Card.isAnimating (Card.expire ownerProps st') = false
  /\ Card.localTrip (Card.expire ownerProps st') = editedTrip.
Proof.
  exact (handleEdit_fulfilled string ownerProps cardApiOk "to: Nashik"
           (Card.opened openTrip true false) editedTrip eq_refl
           ltac:(intros f Hf; injection Hf as <-; reflexivity) eq_refl).
Defined.

Lemma handleEdit_onUpdate_throws_witness :
  Eff.exec (Card.handleEdit brokenParentProps cardApiOk "to: Nashik")
    (Card.opened openTrip true false)
  = {| Card.localTrip := editedTrip; Card.isLoading := false;
       Card.isAnimating := false; Card.isEditModalOpen := true;
       Card.isDeleteModalOpen := false; Card.timers := [];
       Card.trace := [Card.CallUpdateTrip 7; Card.Settled true;
                      Card.SetLocalTrip editedTrip;
                      Card.CallOnUpdate editedTrip;
                      Card.Alert "render failed"] |}.
Proof.
  exact (handleEdit_onUpdate_throws string brokenParentProps cardApiOk
           "to: Nashik" (Card.opened openTrip true false) editedTrip
           (fun _ => Rejected "render failed") "render failed"
           eq_refl eq_refl eq_refl).
Defined.

Lemma handleDelete_resolved_witness :
  let st' := Eff.exec (Card.handleDelete ownerProps cardApiOk)
               (Card.opened openTrip false true) in
  st' = {| Card.localTrip := openTrip; Card.isLoading := true;
           Card.isAnimating := true; Card.isEditModalOpen := false;
           Card.isDeleteModalOpen := true;
           Card.timers := [(500, Card.NotifyDeleted 7)];
           Card.trace := [Card.CallDeleteTrip 7; Card.Settled true] |}
  /\ Card.timers (Card.expire ownerProps st') = []
  /\ Card.trace (Card.expire ownerProps st')
     = [Card.CallDeleteTrip 7; Card.Settled true; Card.CallOnDelete 7].
Proof.
  exact (handleDelete_resolved string ownerProps cardApiOk
           (Card.opened openTrip false true) eq_refl eq_refl).
Defined.

Lemma handleDelete_rejected_witness :
  let st' := Eff.exec (Card.handleDelete ownerProps cardApiDown)
               (Card.opened openTrip false true) in
  st' = {| Card.localTrip := openTrip; Card.isLoading := false;
           Card.isAnimating := false; Card.isEditModalOpen := false;
           Card.isDeleteModalOpen := true; Card.timers := [];
           Card.trace := [Card.CallDeleteTrip 7; Card.Settled false;
                          Card.Alert "Not allowed"] |}
  /\ Card.expire ownerProps st' = st'.
Proof.
  intros st'.
  destruct (handleDelete_rejected string ownerProps cardApiDown
              (Card.opened openTrip false true) "Not allowed" eq_refl)
    as (Hst & Hexp).
  split; [exact Hst | exact (Hexp eq_refl)].
Defined.

Example encodeURIComponent_ex :
  URI.encodeURIComponent "Hi Asha, trip to Pune & back?"
  = "Hi%20Asha%2C%20trip%20to%20Pune%20%26%20back%3F".
Proof. reflexivity. Qed.

Example today_is_refused_behind_UTC :
  SearchForm.accepted noonIST (dated "2024-03-10") = true
  /\ SearchForm.accepted noonEST (dated "2024-03-10") = false
  /\ SearchForm.accepted noonEST (dated "2024-03-11") = true.
Proof. repeat split; vm_compute; reflexivity. Qed.
